(** * react-redux-connector: a shallow embedding of [src/index.js]

    The module exports [createNamespacedReducer], [combineNamespacedReducers],
    [checkConfigPrerequisiteSatisfied], [createNamespaceConnector], [propAs]
    and [combineConnectors].  Every one of them is embedded below as a Rocq
    function over a type of JavaScript values; [console.warn] and [throw] are
    threaded through a small monad.

    Conventions of the embedding:
    - an object written as a literal is the [gmap string Value] of its own
      properties and inherits the members of [Object.prototype], which is as
      the language defines it: a property read that finds no own property
      finds those, and an assignment under the key [__proto__] reaches the
      accessor of [Object.prototype], which replaces the prototype of the
      object and creates no property;
    - the module is strict code: an assignment that meets a read-only
      property on the prototype chain throws a TypeError;
    - the namespace state container is an Immutable.js [Map] with prop names
      as keys, [VMap]; numbers are the integers;
    - a closure created by this module is a constructor of [Value] that
      records the variables it closes over;
    - what belongs to the host (calling a function the application supplied,
      converting a number or an object to a string, the members of library
      objects) is a field of [Host], over which everything is parametric;
    - the two framework primitives [combineReducers] and [connect] are not
      run: the embedding returns the arguments handed to them. *)

From stdpp Require Import gmap strings list fin_maps pretty.

#[local] Open Scope string_scope.
#[local] Open Scope list_scope.

(** ** JavaScript values *)

#[warnings="-register-all"]
Inductive Value : Type :=
| VUndefined
| VNull
| VBool (b : bool)
| VNum (n : Z)
| VStr (s : string)
| VObj (own : gmap string Value)
| VArr (elems : list Value)
| VMap (entries : gmap string Value)
    (* an Immutable.js Map *)
| VAsPropRenamer (actionOrStateIndex propName : Value)
    (* new AsPropRenamer(actionOrStateIndex, propName) *)
| VFun (id : nat)
    (* a function supplied by the application *)
| VReducer (namespace initialState reducerFunctions : Value)
    (* the closure [reducer] of createNamespacedReducer *)
| VConnector (reduxNamespace allActionsObj propOverrides : Value)
    (* the closure [connector] of createNamespaceConnector *)
| VCurriedCreateMapStateToProps (reduxNamespace propOverrides : Value)
| VCurriedCreateMapDispatchToProps (allActionsObj : Value)
| VMapStateToProps (reduxNamespace propOverrides propsToConnect config : Value)
    (* the closure returned by createMapStateToPropsFunc *)
| VCombinedMapStateToProps (stateMappers : list Value)
    (* the closure [combinedMapStateToPropsFuncs] of combineConnectors, with the
       state mappers accumulated when the component was connected *)
| VObjectPrototype
    (* Object.prototype *)
| VBuiltin (name : string)
    (* a function of the language's library, by its name *)
| VObjWithProto (proto : Value) (own : gmap string Value).
    (* an object written as a literal whose prototype an assignment replaced *)

(** What a [throw] carries.  The text of an engine's TypeError is not modelled. *)
Inductive Exn : Type :=
| Error (message : string)
| TypeError.

Inductive Outcome (A : Type) : Type :=
| Returns (a : A)
| Throws (e : Exn).
Arguments Returns {A} a.
Arguments Throws {A} e.

(** ** The effect monad: the lines written to [console.warn], and [throw] *)

Definition M (A : Type) : Type := list string → Outcome A * list string.

Definition ret {A} (a : A) : M A := λ console, (Returns a, console).

Definition throw {A} (e : Exn) : M A := λ console, (Throws e, console).

Definition bind {A B} (c : M A) (k : A → M B) : M B :=
  λ console,
    match c console with
    | (Returns a, console') => k a console'
    | (Throws e, console') => (Throws e, console')
    end.

Definition warn (line : string) : M unit :=
  λ console, (Returns tt, console ++ [line]).

Definition lift {A} (o : Outcome A) : M A := λ console, (o, console).

Notation "'let*' x ':=' c 'in' k" := (bind c (λ x, k))
  (at level 10, x name, c at level 100, k at level 200).

(** [array.reduce(callback, initial)] with an effectful callback. *)
Fixpoint reduce {A} (callback : A → Value → M A) (items : list Value) (acc : A)
  : M A :=
  match items with
  | [] => ret acc
  | item :: rest => let* acc' := callback acc item in reduce callback rest acc'
  end.

(** [array.forEach(f)] collecting what each call produced. *)
Fixpoint forEach {A} (f : Value → M A) (items : list Value) : M (list A) :=
  match items with
  | [] => ret []
  | item :: rest => let* a := f item in let* more := forEach f rest in ret (a :: more)
  end.

(** ** Primitive operations on values *)

Definition truthy (v : Value) : bool :=
  match v with
  | VUndefined | VNull => false
  | VBool b => b
  | VNum n => negb (n =? 0)%Z
  | VStr s => negb (String.eqb s "")
  | _ => true
  end.

Definition typeof (v : Value) : string :=
  match v with
  | VUndefined => "undefined"
  | VBool _ => "boolean"
  | VNum _ => "number"
  | VStr _ => "string"
  | VNull | VObj _ | VArr _ | VMap _ | VAsPropRenamer _ _
  | VObjectPrototype | VObjWithProto _ _ => "object"
  | VFun _ | VReducer _ _ _ | VConnector _ _ _
  | VCurriedCreateMapStateToProps _ _ | VCurriedCreateMapDispatchToProps _
  | VMapStateToProps _ _ _ _ | VCombinedMapStateToProps _ | VBuiltin _ => "function"
  end.

Definition isFunction (v : Value) : bool := String.eqb (typeof v) "function".
Definition isString (v : Value) : bool := String.eqb (typeof v) "string".

(** [v instanceof Array] *)
Definition isArray (v : Value) : bool :=
  match v with VArr _ => true | _ => false end.

(** [v instanceof AsPropRenamer] *)
Definition isAsPropRenamer (v : Value) : bool :=
  match v with VAsPropRenamer _ _ => true | _ => false end.

(** [a || b] *)
Definition orElse (a b : Value) : Value := if truthy a then a else b.

(** A parameter with a default value: the default replaces [undefined] only. *)
Definition withDefault (v default : Value) : Value :=
  match v with VUndefined => default | _ => v end.

(** The i-th argument of a call, [undefined] when it was not passed. *)
Definition arg (args : list Value) (i : nat) : Value :=
  default VUndefined (args !! i).

(** The index-named properties of an array or of the characters of a string. *)
Definition indexed (items : list Value) : gmap string Value :=
  list_to_map (imap (λ i x, (pretty i, x)) items).

Definition characters (s : string) : list Value :=
  (λ c, VStr (String c "")) <$> String.list_ascii_of_string s.

(** ** Object.prototype *)

(** The methods that every object inherits from [Object.prototype]. *)
Definition objectPrototypeMethods : list string :=
  ["constructor"; "hasOwnProperty"; "isPrototypeOf"; "propertyIsEnumerable";
   "toLocaleString"; "toString"; "valueOf";
   "__defineGetter__"; "__defineSetter__"; "__lookupGetter__"; "__lookupSetter__"].

(** Whether [key] names a member of [Object.prototype]: one of its methods, or
    its accessor [__proto__]. *)
Definition inheritedByObjects (key : string) : bool :=
  String.eqb key "__proto__" || existsb (String.eqb key) objectPrototypeMethods.

(** What a read under [key] finds on [Object.prototype].  The accessor
    [__proto__] answers with the prototype of the object that is read;
    [constructor] is the function [Object]. *)
Definition objectPrototypeMember (prototype : Value) (key : string) : Value :=
  if String.eqb key "__proto__" then prototype
  else if existsb (String.eqb key) objectPrototypeMethods
       then VBuiltin (if String.eqb key "constructor" then "Object"
                      else "Object.prototype." +:+ key)
  else VUndefined.

(** [obj[key]] on an object written as a literal: the own property, else the
    member of [Object.prototype]. *)
Definition objectGet (own : gmap string Value) (key : string) : Value :=
  match own !! key with
  | Some v => v
  | None => objectPrototypeMember VObjectPrototype key
  end.

(** ** The host *)

Record Host := {
  (* [f.call(this, ...args)] for a function value of the application or of the
     language's library *)
  hostCall : Value → Value → list Value → M Value;
  (* ToString of a number or of an object *)
  hostToString : Value → string;
  (* a property read that finds no own property of the embedding: a member of
     a library object or of a function that this module did not assign, and
     what a value other than an object literal inherits from its prototype *)
  hostGet : Value → string → Value;
  (* the own enumerable properties of a library object or of a function of
     the application *)
  hostOwn : Value → gmap string Value;
}.

Section Embedding.

Context (host : Host).

(** ToString, as applied by a template literal and by a computed property
    key. *)
Definition toString (v : Value) : string :=
  match v with
  | VStr s => s
  | VUndefined => "undefined"
  | VNull => "null"
  | VBool true => "true"
  | VBool false => "false"
  | _ => hostToString host v
  end.

(** [obj[key]] with the key already converted: the own property, else what the
    prototype chain holds. *)
Definition getProp (obj : Value) (key : string) : Outcome Value :=
  match obj with
  | VUndefined | VNull => Throws TypeError
  | VBool _ | VNum _ => Returns (hostGet host obj key)
  | VStr s =>
      if String.eqb key "length" then Returns (VNum (Z.of_nat (String.length s)))
      else Returns (default (hostGet host obj key) (indexed (characters s) !! key))
  | VObj own => Returns (objectGet own key)
  | VArr elems =>
      if String.eqb key "length" then Returns (VNum (Z.of_nat (length elems)))
      else Returns (default (hostGet host obj key) (indexed elems !! key))
  | VAsPropRenamer actionOrStateIndex propName =>
      if String.eqb key "actionOrStateIndex" then Returns actionOrStateIndex
      else if String.eqb key "propName" then Returns propName
      else Returns (hostGet host obj key)
  | VReducer namespace _ _ =>
      if String.eqb key "reduxNamespace" then Returns namespace
      else Returns (hostGet host obj key)
  | VConnector reduxNamespace allActionsObj propOverrides =>
      if String.eqb key "curriedCreateMapStateToProps"
      then Returns (VCurriedCreateMapStateToProps reduxNamespace propOverrides)
      else if String.eqb key "curriedCreateMapDispatchToProps"
      then Returns (VCurriedCreateMapDispatchToProps allActionsObj)
      else Returns (hostGet host obj key)
  | VMap _ | VFun _ | VCurriedCreateMapStateToProps _ _
  | VCurriedCreateMapDispatchToProps _ | VMapStateToProps _ _ _ _
  | VCombinedMapStateToProps _ | VBuiltin _ =>
      Returns (hostGet host obj key)
  | VObjectPrototype => Returns (objectPrototypeMember VNull key)
  | VObjWithProto _ own => Returns (default (hostGet host obj key) (own !! key))
  end.

(** The own enumerable string-keyed properties, as [Object.keys] and
    [Object.assign] see them. *)
Definition ownEnumerable (v : Value) : gmap string Value :=
  match v with
  | VUndefined | VNull | VBool _ | VNum _ => ∅
  | VStr s => indexed (characters s)
  | VObj own => own
  | VArr elems => indexed elems
  | VAsPropRenamer actionOrStateIndex propName =>
      <["propName" := propName]> {["actionOrStateIndex" := actionOrStateIndex]}
  | VReducer namespace _ _ => {["reduxNamespace" := namespace]}
  | VConnector reduxNamespace allActionsObj propOverrides =>
      <["curriedCreateMapDispatchToProps" :=
          VCurriedCreateMapDispatchToProps allActionsObj]>
        {["curriedCreateMapStateToProps" :=
            VCurriedCreateMapStateToProps reduxNamespace propOverrides]}
  | VCurriedCreateMapStateToProps _ _ | VCurriedCreateMapDispatchToProps _
  | VMapStateToProps _ _ _ _ | VCombinedMapStateToProps _
  | VObjectPrototype | VBuiltin _ => ∅
  | VMap _ | VFun _ => hostOwn host v
  | VObjWithProto _ own => own
  end.

(** [Object.keys(obj).includes(x)]: [includes] compares without conversion, so
    only a string can be found among the keys. *)
Definition objectKeysIncludes (obj x : Value) : Outcome bool :=
  match obj with
  | VUndefined | VNull => Throws TypeError
  | _ =>
      match x with
      | VStr s => Returns (bool_decide (is_Some (ownEnumerable obj !! s)))
      | _ => Returns false
      end
  end.

(** One step of [Object.assign]: the properties of [source] are written into
    the target, over the ones it has under the same keys. *)
Definition assignSource (target : gmap string Value) (source : Value)
  : gmap string Value :=
  ownEnumerable source ∪ target.

(** [Object.assign(...args)].  Both call sites pass a list headed by an object
    literal; a target that is not a plain object is returned as it is.  The
    sources are taken to have no own property named [__proto__]: the
    properties of such sources are own properties of the target
    afterwards. *)
Definition objectAssign (args : list Value) : Outcome Value :=
  match args with
  | [] => Throws TypeError
  | VUndefined :: _ | VNull :: _ => Throws TypeError
  | VObj target :: sources => Returns (VObj (foldl assignSource target sources))
  | target :: _ => Returns target
  end.

(** ** Assignment to a property

    The module assigns to the objects it creates with the literal [{}] and to
    nothing else.  The properties of the objects that the application supplies
    are taken to be writable data properties. *)

(** An object created by the literal [{}]: its prototype, which is
    [Object.prototype] until an assignment replaces it, and its own
    properties. *)
Record ObjectLiteral := {
  prototype : Value;
  properties : gmap string Value;
}.

(** [{}], and more generally the literal with the given properties. *)
Definition plain (own : gmap string Value) : ObjectLiteral :=
  {| prototype := VObjectPrototype; properties := own |}.

(** The object as a value. *)
Definition objectValue (obj : ObjectLiteral) : Value :=
  match prototype obj with
  | VObjectPrototype => VObj (properties obj)
  | proto => VObjWithProto proto (properties obj)
  end.

(** What an assignment does when the object has no own property under the
    key: it looks the key up along the prototype chain. *)
Inductive Assignment : Type :=
| CreatesOwn          (* nothing found, or a writable data property *)
| ThrowsTypeError     (* a read-only property: the module is strict code *)
| ReplacesPrototype.  (* the accessor [__proto__] of [Object.prototype] *)

(** The read-only properties on the chain are those of functions: their own
    [name] and [length], the accessors [caller] and [arguments] of
    [Function.prototype], which throw, and the [prototype] of the constructor
    [Object].  (A function of the application is taken to be a function, not
    a class.) *)
Definition readOnlyMember (f : Value) (key : string) : bool :=
  isFunction f
  && (existsb (String.eqb key) ["name"; "length"; "caller"; "arguments"]
      || match f with
         | VBuiltin name => String.eqb name "Object" && String.eqb key "prototype"
         | _ => false
         end).

(** A chain that ends in [null] does not reach [Object.prototype]. *)
Fixpoint assignmentThrough (proto : Value) (key : string) : Assignment :=
  match proto with
  | VUndefined | VNull | VBool _ | VNum _ | VStr _ => CreatesOwn
  | VObjWithProto next own =>
      match own !! key with
      | Some _ => CreatesOwn
      | None => assignmentThrough next key
      end
  | _ =>
      if readOnlyMember proto key then ThrowsTypeError
      else
        match ownEnumerable proto !! key with
        | Some _ => CreatesOwn
        | None => if String.eqb key "__proto__" then ReplacesPrototype else CreatesOwn
        end
  end.

(** The setter of [__proto__] replaces the prototype by an object or by
    [null], and ignores any other value. *)
Definition newPrototype (current value : Value) : Value :=
  if String.eqb (typeof value) "object" || isFunction value then value else current.

(** [obj[key] = value] with the key already converted. *)
Definition setProp (obj : ObjectLiteral) (key : string) (value : Value)
  : Outcome ObjectLiteral :=
  let assigned :=
    {| prototype := prototype obj; properties := <[key := value]> (properties obj) |} in
  match properties obj !! key with
  | Some _ => Returns assigned
  | None =>
      match assignmentThrough (prototype obj) key with
      | CreatesOwn => Returns assigned
      | ThrowsTypeError => Throws TypeError
      | ReplacesPrototype =>
          Returns {| prototype := newPrototype (prototype obj) value;
                     properties := properties obj |}
      end
  end.

(** A call of a function value of the application. *)
Definition callHost (f this : Value) (args : list Value) : M Value :=
  if isFunction f then hostCall host f this args else throw TypeError.

(** [obj.name(...args)] for a method of the application or of a library. *)
Definition invokeMethod (obj : Value) (name : string) (args : list Value)
  : M Value :=
  let* f := lift (getProp obj name) in callHost f obj args.

(** [state.has(key)] and [state.get(key)] on the namespace state. *)
Definition stateHas (state key : Value) : M bool :=
  match state with
  | VMap entries =>
      match key with
      | VStr s => ret (bool_decide (is_Some (entries !! s)))
      | _ => ret false
      end
  | _ => let* r := invokeMethod state "has" [key] in ret (truthy r)
  end.

Definition stateGet (state key : Value) : M Value :=
  match state with
  | VMap entries =>
      match key with
      | VStr s => ret (default VUndefined (entries !! s))
      | _ => ret VUndefined
      end
  | _ => invokeMethod state "get" [key]
  end.

(** [a && b] where evaluating [b] can have an effect. *)
Definition andAlso (a : bool) (b : M bool) : M bool :=
  if a then b else ret false.

(** ** createNamespacedReducer *)

(** The body of [reducer]: [(state = initialState, action) => ...]. *)
Definition reducer (initialState reducerFunctions state action : Value)
  : M Value :=
  let state := withDefault state initialState in
  let* type := lift (getProp action "type") in
  let* handler := lift (getProp reducerFunctions (toString type)) in
  if truthy handler
  then callHost handler reducerFunctions [state; action]
  else ret state.

Definition createNamespacedReducer (namespace initialState reducerFunctions : Value)
  : Value :=
  VReducer namespace initialState reducerFunctions.

(** ** combineNamespacedReducers *)

(** The result is the object handed to [combineReducers]. *)
Definition combineNamespacedReducers (reduxReducers : list Value) : M Value :=
  let* indexedReduxReducers :=
    reduce
      (λ (indexedReduxReducers : ObjectLiteral) reduxReducer,
         let* namespace := lift (getProp reduxReducer "reduxNamespace") in
         lift (setProp indexedReduxReducers (toString namespace) reduxReducer))
      reduxReducers (plain ∅) in
  ret (objectValue indexedReduxReducers).

(** ** checkConfigPrerequisiteSatisfied *)

(** [array.concat(x)] builds a new array and leaves [array] as it was. *)
Definition concat (array : list string) (x : string) : list string :=
  array ++ [x].

(** [array.join(', ')] *)
Fixpoint join (array : list string) : string :=
  match array with
  | [] => ""
  | [x] => x
  | x :: rest => x +:+ ", " +:+ join rest
  end.

Definition checkConfigPrerequisiteSatisfied
    (connectorName propName requiredConfigName config : Value) : M Value :=
  let missingParams : list string := [] in
  let _ := if negb (truthy connectorName)
           then concat missingParams "connectorName" else [] in
  let _ := if negb (truthy propName)
           then concat missingParams "propName" else [] in
  let _ := if negb (truthy requiredConfigName)
           then concat missingParams "requiredConfigName" else [] in
  if negb (length missingParams =? 0)%nat then
    let errorStart := "Invalid call to react-redux-connector's "
                      +:+ "isConfigPrerequisiteSatisfied function." in
    throw (Error (errorStart +:+ "  No value specified for param(s): "
                  +:+ join missingParams))
  else
    let* isMissing :=
      (if negb (String.eqb (typeof config) "object") then ret true
       else let* required := lift (getProp config (toString requiredConfigName)) in
            ret (negb (String.eqb (typeof required) "string"))) in
    if (isMissing : bool) then
      let errorStart := "In `" +:+ toString propName
                        +:+ "` override in `connectProductListProductsModel`." in
      throw (Error (errorStart +:+ "  Config property `"
                    +:+ toString requiredConfigName
                    +:+ "` is required but not specified"))
    else ret VUndefined.

(** ** propAs *)

Definition propAs (actionOrStateIndex propName : Value) : M Value :=
  let* _ :=
    (if negb (isString actionOrStateIndex) || negb (isString propName)
     then warn ("Warning: reduxHelper `propAs` requires a state index and prop name. "
                +:+ "Received actionOrStateIndex: '" +:+ toString actionOrStateIndex
                +:+ "', propName: '" +:+ toString propName +:+ "'")
     else ret tt) in
  ret (VAsPropRenamer actionOrStateIndex propName).

(** ** createMapStateToPropsFunc *)

(** The callback given to [propsToConnect.reduce]. *)
Definition mapStateToPropsStep (propOverrides config state ownProps : Value)
    (newPropsObj : ObjectLiteral) (propName : Value)
  : M ObjectLiteral :=
  let* override := lift (getProp propOverrides (toString propName)) in
  if isFunction override then
    let* value := callHost override propOverrides [state; ownProps; config] in
    lift (setProp newPropsObj (toString propName) value)
  else
    let* inState := andAlso (isString propName) (stateHas state propName) in
    if (inState : bool) then
      let* value := stateGet state propName in
      lift (setProp newPropsObj (toString propName) value)
    else
      match propName with
      | VAsPropRenamer actionOrStateIndex targetName =>
          let* renamedInState := stateHas state actionOrStateIndex in
          if (renamedInState : bool) then
            let* value := stateGet state actionOrStateIndex in
            lift (setProp newPropsObj (toString targetName) value)
          else
            let* renamedOverride :=
              lift (objectKeysIncludes propOverrides actionOrStateIndex) in
            if (renamedOverride : bool) then
              let* f := lift (getProp propOverrides (toString actionOrStateIndex)) in
              let* value := callHost f propOverrides [state; ownProps; config] in
              lift (setProp newPropsObj (toString targetName) value)
            else
              let* _ := warn ("Warning: Attempted to map invalid state key name "
                              +:+ toString actionOrStateIndex) in
              ret newPropsObj
      | _ =>
          let* _ := warn ("Warning: Attempted to map invalid state key name "
                          +:+ toString propName) in
          ret newPropsObj
      end.

(** [createMapStateToPropsFunc(...)] applied to the global state and the
    component's own props. *)
Definition createMapStateToPropsFunc
    (reduxNamespace propOverrides propsToConnect config : Value)
    (globalState ownProps : Value) : M Value :=
  let* state := lift (getProp globalState (toString reduxNamespace)) in
  if negb (truthy state) then
    throw (Error ("Unable to find state namespace '" +:+ toString reduxNamespace
                  +:+ "'; Perhaps you "
                  +:+ "forgot to add the namespaced reducer to your call to "
                  +:+ "'combineNamespacedReducers'?"))
  else
    match propsToConnect with
    | VArr items =>
        let* newPropsObj :=
          reduce (mapStateToPropsStep propOverrides config state ownProps) items
            (plain ∅) in
        ret (objectValue newPropsObj)
    | _ => ret (VObj ∅)
    end.

(** ** createMapDispatchToPropsObj *)

(** The callback given to [actionsToConnect.reduce]. *)
Definition mapDispatchToPropsStep (allActionsObj : Value)
    (newState : ObjectLiteral) (actionName : Value)
  : M ObjectLiteral :=
  let* direct :=
    andAlso (isString actionName)
      (let* action := lift (getProp allActionsObj (toString actionName)) in
       ret (truthy action)) in
  if (direct : bool) then
    let* action := lift (getProp allActionsObj (toString actionName)) in
    lift (setProp newState (toString actionName) action)
  else
    match actionName with
    | VAsPropRenamer actionOrStateIndex targetName =>
        let* action := lift (getProp allActionsObj (toString actionOrStateIndex)) in
        if truthy action then
          lift (setProp newState (toString targetName) action)
        else
          let* _ := warn ("Warning: Attempted to map invalid action name "
                          +:+ toString actionName) in
          ret newState
    | _ =>
        let* _ := warn ("Warning: Attempted to map invalid action name "
                        +:+ toString actionName) in
        ret newState
    end.

(** [reduce] is the method of arrays; the values that are no arrays are taken
    to have no member [reduce], so that the call throws. *)
Definition createMapDispatchToPropsObj (allActionsObj actionsToConnect : Value)
  : M Value :=
  match actionsToConnect with
  | VArr items =>
      let* newState :=
        reduce (mapDispatchToPropsStep allActionsObj) items (plain ∅) in
      ret (objectValue newState)
  | _ => throw TypeError
  end.

(** ** createNamespaceConnector *)

(** The four arguments of a call of [connect]. *)
Record ConnectCall := {
  mapStateToProps : Value;
  mapDispatchToProps : Value;
  mergePropsArg : Value;
  optionsArg : Value;
}.

(** The body of [connector]:
    [(propsToConnect = [], actionsToConnect, config = {}) => connect(...)]. *)
Definition connector (reduxNamespace allActionsObj propOverrides : Value)
    (propsToConnect actionsToConnect config : Value) : M ConnectCall :=
  let propsToConnect := withDefault propsToConnect (VArr []) in
  let config := withDefault config (VObj ∅) in
  let mapState :=
    VMapStateToProps reduxNamespace propOverrides propsToConnect config in
  let* mapDispatch :=
    createMapDispatchToPropsObj allActionsObj (orElse actionsToConnect (VArr [])) in
  ret {| mapStateToProps := mapState; mapDispatchToProps := mapDispatch;
         mergePropsArg := VUndefined; optionsArg := VUndefined |}.

Definition createNamespaceConnector (reduxNamespace allActionsObj propOverrides : Value)
  : Value :=
  VConnector reduxNamespace
    (withDefault allActionsObj (VObj ∅)) (withDefault propOverrides (VObj ∅)).

(** A call of a function value from [combineConnectors]: the closures of this
    module run their bodies, anything else is the host's. *)
Definition callFunction (f this : Value) (args : list Value) : M Value :=
  match f with
  | VCurriedCreateMapStateToProps reduxNamespace propOverrides =>
      ret (VMapStateToProps reduxNamespace propOverrides (arg args 0) (arg args 1))
  | VCurriedCreateMapDispatchToProps allActionsObj =>
      createMapDispatchToPropsObj allActionsObj (orElse (arg args 0) (VArr []))
  | VMapStateToProps reduxNamespace propOverrides propsToConnect config =>
      createMapStateToPropsFunc reduxNamespace propOverrides propsToConnect config
        (arg args 0) (arg args 1)
  | VReducer _ initialState reducerFunctions =>
      reducer initialState reducerFunctions (arg args 0) (arg args 1)
  | _ => callHost f this args
  end.

Definition callMethod (obj : Value) (name : string) (args : list Value) : M Value :=
  let* f := lift (getProp obj name) in callFunction f obj args.

(** ** combineConnectors *)

(** The variables [combinedConnectors], [push] and [connect] close over. *)
Record Builder := {
  stateMappers : list Value;
  mappedDispatches : list Value;
  mergeProps : Value;
  options : Value;
}.

Definition pushStateMapper (b : Builder) (stateMapper : Value) : Builder :=
  {| stateMappers := stateMappers b ++ [stateMapper];
     mappedDispatches := mappedDispatches b;
     mergeProps := mergeProps b; options := options b |}.

Definition pushMappedDispatch (b : Builder) (mappedDispatch : Value) : Builder :=
  {| stateMappers := stateMappers b;
     mappedDispatches := mappedDispatches b ++ [mappedDispatch];
     mergeProps := mergeProps b; options := options b |}.

Definition pushFunc (b : Builder)
    (connector propsToConnect actionsToConnect config : Value) : M Builder :=
  let* b :=
    (if truthy propsToConnect then
       let* stateMapper :=
         callMethod connector "curriedCreateMapStateToProps" [propsToConnect; config] in
       ret (pushStateMapper b stateMapper)
     else ret b) in
  if truthy actionsToConnect then
    let* mappedDispatch :=
      callMethod connector "curriedCreateMapDispatchToProps" [actionsToConnect] in
    ret (pushMappedDispatch b mappedDispatch)
  else ret b.

Definition connectFunc (b : Builder)
    (customMapStateToProps customMapDispatchToProps customMergeProps customOptions : Value)
  : Builder :=
  let b := if truthy customMapStateToProps
           then pushStateMapper b customMapStateToProps else b in
  let b := if truthy customMapDispatchToProps
           then pushMappedDispatch b customMapDispatchToProps else b in
  {| stateMappers := stateMappers b; mappedDispatches := mappedDispatches b;
     mergeProps := customMergeProps; options := customOptions |}.

(** The operand of an array pattern is iterated; arrays and strings are the
    iterables of the embedding. *)
Definition destructure (v : Value) : Outcome (list Value) :=
  match v with
  | VArr elems => Returns elems
  | VStr s => Returns (characters s)
  | _ => Throws TypeError
  end.

Definition combineConnectors (connectorsAndParams : list Value) : M Builder :=
  let b := {| stateMappers := []; mappedDispatches := [VObj ∅];
              mergeProps := VUndefined; options := VUndefined |} in
  let* nested :=
    andAlso (isArray (arg connectorsAndParams 0))
      (let* first := lift (getProp (arg connectorsAndParams 0) "0") in
       ret (isArray first)) in
  if (nested : bool) then
    throw (Error ("Invalid first argument in call to `combineConnectors`; Use multiple "
                  +:+ "arguments instead of two-dimensional Array"))
  else
    reduce
      (λ b entry,
         let* items := lift (destructure entry) in
         pushFunc b (arg items 0) (arg items 1) (arg items 2) (arg items 3))
      connectorsAndParams b.

(** The body of [combinedMapStateToPropsFuncs]. *)
Definition combinedMapStateToPropsFuncs (stateMappers : list Value)
    (state ownProps : Value) : M Value :=
  let* mapped :=
    forEach (λ stateMapper, callFunction stateMapper VUndefined [state; ownProps])
      stateMappers in
  lift (objectAssign (VObj ∅ :: mapped)).

(** [connect(...)(TargetComponent)] *)
Record Bound := {
  call : ConnectCall;
  component : Value;
}.

(** The body of [combinedConnectors].  [Object.assign] writes into its first
    argument, the object at the head of [mappedDispatches], which therefore
    holds the merged properties afterwards. *)
Definition combinedConnectors (b : Builder) (TargetComponent : Value)
  : M (Bound * Builder) :=
  let* combinedMapDispatchToPropsObjects := lift (objectAssign (mappedDispatches b)) in
  ret ({| call :=
            {| mapStateToProps := VCombinedMapStateToProps (stateMappers b);
               mapDispatchToProps := combinedMapDispatchToPropsObjects;
               mergePropsArg := mergeProps b; optionsArg := options b |};
          component := TargetComponent |},
       {| stateMappers := stateMappers b;
          mappedDispatches :=
            match mappedDispatches b with
            | [] => []
            | _ :: rest => combinedMapDispatchToPropsObjects :: rest
            end;
          mergeProps := mergeProps b; options := options b |}).

(** What the framework does with the [mapStateToProps] it was handed: it calls
    it with the store's state and the component's own props. *)
Definition runMapStateToProps (f state ownProps : Value) : M Value :=
  match f with
  | VCombinedMapStateToProps stateMappers =>
      combinedMapStateToPropsFuncs stateMappers state ownProps
  | _ => callFunction f VUndefined [state; ownProps]
  end.

(** ** Notions used to state the properties *)

(** [merged] is the left-to-right shallow merge of [sources]: under every key
    it holds the value of the last source that has the key, and nothing when
    no source has it. *)
Definition shallowMergeOf (sources : list Value) (merged : gmap string Value) : Prop :=
  ∀ key,
    (∀ before source after value,
       sources = before ++ source :: after →
       ownEnumerable source !! key = Some value →
       (∀ later, later ∈ after → ownEnumerable later !! key = None) →
       merged !! key = Some value)
    ∧ ((∀ source, source ∈ sources → ownEnumerable source !! key = None) →
       merged !! key = None).

(** The prop names under which an entry of [propsToConnect] or of
    [actionsToConnect] can be connected: its own name and, for a renaming
    directive, the prop name of the directive. *)
Definition connectedNames (entry : Value) : list string :=
  match entry with
  | VAsPropRenamer _ propName => [toString entry; toString propName]
  | _ => [toString entry]
  end.


(** The key under which [combineNamespacedReducers] files a reducer: its
    member [reduxNamespace], converted to a property key. *)
Definition namespaceKey (reduxReducer : Value) : string :=
  match getProp reduxReducer "reduxNamespace" with
  | Returns namespace => toString namespace
  | Throws _ => ""
  end.

(** The builders an application can reach: [combineConnectors(...)] followed
    by any chain of [.push(...)], [.connect(...)] and applications to a
    component. *)
Inductive Built : Builder → Prop :=
| Built_combineConnectors connectorsAndParams console b console' :
    combineConnectors connectorsAndParams console = (Returns b, console') →
    Built b
| Built_push b connector propsToConnect actionsToConnect config console b' console' :
    Built b →
    pushFunc b connector propsToConnect actionsToConnect config console
    = (Returns b', console') →
    Built b'
| Built_connect b customMapStateToProps customMapDispatchToProps
    customMergeProps customOptions :
    Built b →
    Built (connectFunc b customMapStateToProps customMapDispatchToProps
             customMergeProps customOptions)
| Built_connected b TargetComponent console bound b' console' :
    Built b →
    combinedConnectors b TargetComponent console = (Returns (bound, b'), console') →
    Built b'.

End Embedding.

(** ** Inputs used by the examples *)

(** The class that [Object.prototype.toString] prints for a value. *)
Definition classOf (v : Value) : string :=
  match v with
  | VUndefined => "Undefined"
  | VNull => "Null"
  | VBool _ => "Boolean"
  | VNum _ => "Number"
  | VStr _ => "String"
  | VArr _ => "Array"
  | VObj _ | VMap _ | VAsPropRenamer _ _ | VObjectPrototype | VObjWithProto _ _ => "Object"
  | _ => "Function"
  end.

(** A host whose application functions return a value computed from their
    identity and ignore their arguments, whose numbers print in decimal and
    whose objects print as [[object Object]].  Of the language's library it
    has [Object.prototype.toString] and, for objects, the function [Object],
    which returns the object it is given. *)
Definition exampleHost : Host := {|
  hostCall := λ f this args,
    match f with
    | VFun id => ret (VNum (Z.of_nat id))
    | VBuiltin name =>
        if String.eqb name "Object.prototype.toString"
        then ret (VStr ("[object " +:+ classOf this +:+ "]"))
        else if String.eqb name "Object"
        then ret (match arg args 0 with
                  | VUndefined | VNull => VObj ∅
                  | value => value
                  end)
        else ret VUndefined
    | _ => ret VUndefined
    end;
  hostToString := λ v,
    match v with
    | VNum n => pretty n
    | _ => "[object Object]"
    end;
  hostGet := λ _ _, VUndefined;
  hostOwn := λ _, ∅;
|}.

(** [Map({ count: 5 })] under the namespace [models/puppy]. *)
Definition puppyState : gmap string Value := {["count" := VNum 5]}.
Definition puppyStore : gmap string Value := {["models/puppy" := VMap puppyState]}.

(** An override for the prop [doubled], and the actions of the model. *)
Definition puppyOverrides : gmap string Value := {["doubled" := VFun 7]}.
Definition puppyActions : gmap string Value :=
  <["requestPuppy" := VFun 1]> {["deletePuppy" := VFun 2]}.

Definition connectPuppyModel : Value :=
  createNamespaceConnector (VStr "models/puppy") (VObj puppyActions) (VObj puppyOverrides).

(** A reducer for [models/puppy] with one handled action type. *)
Definition puppyReducerFunctions : gmap string Value :=
  {["models/puppy/PUPPY_QUERY_SUCCESS" := VFun 3]}.
Definition puppyReducer : Value :=
  createNamespacedReducer (VStr "models/puppy") (VMap ∅) (VObj puppyReducerFunctions).
Definition otherPuppyReducer : Value :=
  createNamespacedReducer (VStr "models/puppy") (VMap puppyState) (VObj ∅).

(** Two reducers that carry the namespace [__proto__]. *)
Definition protoReducer : Value :=
  createNamespacedReducer (VStr "__proto__") (VMap ∅) (VObj ∅).
Definition otherProtoReducer : Value :=
  createNamespacedReducer (VStr "__proto__") (VMap puppyState) (VObj ∅).

(** A reducer for another namespace, and a store whose slice for
    [models/puppy] is a plain object. *)
Definition kittenReducer : Value :=
  createNamespacedReducer (VStr "models/kitten") (VMap ∅) (VObj ∅).
Definition plainStore : gmap string Value := {["models/puppy" := VObj puppyState]}.

(** Two connectors that both expose a prop [z] and an action [z]. *)
Definition storeAB : gmap string Value :=
  <["a" := VMap (<["x" := VNum 1]> {["z" := VNum 10]})]>
    {["b" := VMap (<["y" := VNum 2]> {["z" := VNum 20]})]}.
Definition connectA : Value :=
  createNamespaceConnector (VStr "a")
    (VObj (<["load" := VFun 1]> {["z" := VFun 2]})) VUndefined.
Definition connectB : Value :=
  createNamespaceConnector (VStr "b")
    (VObj (<["save" := VFun 3]> {["z" := VFun 4]})) VUndefined.
Definition entryA : Value :=
  VArr [connectA; VArr [VStr "x"; VStr "z"]; VArr [VStr "load"; VStr "z"]].
Definition entryB : Value :=
  VArr [connectB; VArr [VStr "y"; VStr "z"]; VArr [VStr "save"; VStr "z"]].

(** * Properties *)

Section Properties.

Context (host : Host).

(** ** The monad *)

Lemma bind_returns {A B} (c : M A) (k : A → M B) console a console' :
  c console = (Returns a, console') → bind c k console = k a console'.
Proof. intros H. unfold bind. by rewrite H. Qed.

Lemma bind_throws {A B} (c : M A) (k : A → M B) console e console' :
  c console = (Throws e, console') → bind c k console = (Throws e, console').
Proof. intros H. unfold bind. by rewrite H. Qed.

Lemma reduce_app {A} (callback : A → Value → M A) items more acc console :
  reduce callback (items ++ more) acc console
  = bind (reduce callback items acc) (reduce callback more) console.
Proof.
  revert acc console. induction items as [|item items IH]; intros acc console.
  - reflexivity.
  - simpl. unfold bind at 1. unfold bind at 1. unfold bind at 1.
    destruct (callback acc item console) as [[acc'|e] console']; [|done].
    rewrite IH. reflexivity.
Qed.

Lemma reduce_snoc {A} (callback : A → Value → M A) items item acc console acc' console' :
  reduce callback items acc console = (Returns acc', console') →
  reduce callback (items ++ [item]) acc console = callback acc' item console'.
Proof.
  intros H. rewrite reduce_app. rewrite (bind_returns _ _ _ _ _ H). simpl.
  unfold bind. by destruct (callback acc' item console') as [[?|?] ?].
Qed.

(** ** Values *)

Lemma isFunction_truthy v : isFunction v = true → truthy v = true.
Proof. by destruct v. Qed.

Lemma indexed_head x (rest : list Value) : indexed (x :: rest) !! "0" = Some x.
Proof. unfold indexed. simpl. apply lookup_insert_eq. Qed.

(** ** Reads and assignments on object literals *)

Lemma objectGet_own (own : gmap string Value) key v :
  own !! key = Some v → objectGet own key = v.
Proof. intros H. unfold objectGet. by rewrite H. Qed.

Lemma objectGet_not_inherited (own : gmap string Value) key :
  own !! key = None → inheritedByObjects key = false → objectGet own key = VUndefined.
Proof.
  intros Hown Hinherited. unfold objectGet, objectPrototypeMember. rewrite Hown.
  apply orb_false_elim in Hinherited as [-> ->]. reflexivity.
Qed.

(** A member that an object literal inherits is a function, except for
    [__proto__], which is [Object.prototype] itself. *)
Lemma objectGet_inherited (own : gmap string Value) key :
  own !! key = None → inheritedByObjects key = true →
  truthy (objectGet own key) = true
  ∧ (key ≠ "__proto__" → isFunction (objectGet own key) = true)
  ∧ (key = "__proto__" → objectGet own key = VObjectPrototype).
Proof.
  intros Hown Hinherited. unfold objectGet, objectPrototypeMember. rewrite Hown.
  unfold inheritedByObjects in Hinherited.
  destruct (String.eqb key "__proto__") eqn:E.
  - apply String.eqb_eq in E. by split; [|split].
  - apply String.eqb_neq in E. rewrite orb_false_l in Hinherited.
    rewrite Hinherited. by split; [|split].
Qed.

Lemma objectValue_plain_inv obj own : objectValue obj = VObj own → obj = plain own.
Proof.
  destruct obj as [proto props]. unfold objectValue, plain. simpl.
  destruct proto; intros [=]. by subst.
Qed.

(** An assignment to an object literal under a key other than [__proto__]
    creates the property, or overwrites it. *)
Lemma setProp_plain own key value :
  key ≠ "__proto__" →
  setProp host (plain own) key value = Returns (plain (<[key := value]> own)).
Proof.
  intros Hkey. unfold setProp, plain. simpl.
  destruct (own !! key); [done|].
  rewrite lookup_empty. by apply String.eqb_neq in Hkey as ->.
Qed.

(** Whatever the prototype has become, an assignment that returns has added at
    most a property under its key. *)
Lemma setProp_properties obj key value obj' :
  setProp host obj key value = Returns obj' →
  properties obj' = properties obj ∨ properties obj' = <[key := value]> (properties obj).
Proof.
  unfold setProp. destruct (properties obj !! key).
  - intros [= <-]. by right.
  - destruct (assignmentThrough host (prototype obj) key); intros [= <-]; eauto.
Qed.

(** ** createNamespacedReducer *)

Lemma callHost_function f this args console :
  isFunction f = true → callHost host f this args console = hostCall host f this args console.
Proof. intros H. unfold callHost. by rewrite H. Qed.

(** C2.  Let [r] be the reducer that [createNamespacedReducer] returns for a
    namespace, an initial state and a table of reducer functions, and let it
    be called with a state and an action.  The state it works on is the
    initial state when the given one is undefined.  When the table has a
    function under the action's type, the call is the call of that function on
    the state and the action.  When the table has nothing under the type, and
    the type is not the name of a member that every object inherits
    ([toString], [constructor], ...), the state is returned as it is and
    nothing else happens.  [r] carries the namespace as its member
    [reduxNamespace], under which [combineNamespacedReducers] files it when
    the namespace is not [__proto__]. *)
Theorem namespaced_reducer_dispatches_on_type
    (namespace initialState state : Value)
    (reducerFunctions action : gmap string Value) (console : list string) :
  let r := createNamespacedReducer namespace initialState (VObj reducerFunctions) in
  let type := toString host (objectGet action "type") in
  let state' := match state with VUndefined => initialState | _ => state end in
  (∀ f, reducerFunctions !! type = Some f → isFunction f = true →
        callFunction host r VUndefined [state; VObj action] console
        = hostCall host f (VObj reducerFunctions) [state'; VObj action] console)
  ∧ (reducerFunctions !! type = None → inheritedByObjects type = false →
     callFunction host r VUndefined [state; VObj action] console
     = (Returns state', console))
  ∧ getProp host r "reduxNamespace" = Returns namespace
  ∧ (toString host namespace ≠ "__proto__" →
     combineNamespacedReducers host [r] console
     = (Returns (VObj {[toString host namespace := r]}), console)).
Proof.
  intros r type state'. split; [|split; [|split]].
  - intros f Hf Hfun. simpl. unfold reducer, bind, lift. simpl.
    fold type. rewrite (objectGet_own _ _ _ Hf). rewrite (isFunction_truthy _ Hfun).
    by rewrite callHost_function.
  - intros Hnone Hinherited. simpl. unfold reducer, bind, lift. simpl.
    fold type. by rewrite objectGet_not_inherited.
  - reflexivity.
  - intros Hkey. unfold combineNamespacedReducers, bind, lift, ret. simpl.
    by rewrite setProp_plain.
Qed.

(** ** combineNamespacedReducers *)

Lemma getProp_function f key :
  isFunction f = true → ∃ v, getProp host f key = Returns v.
Proof.
  intros H. destruct f; try discriminate H; simpl; eauto;
    repeat (match goal with |- context [if ?c then _ else _] => destruct c end); eauto.
Qed.

Lemma namespaceKey_function r namespace :
  getProp host r "reduxNamespace" = Returns namespace →
  namespaceKey host r = toString host namespace.
Proof. intros H. unfold namespaceKey. by rewrite H. Qed.

(** On reducers whose namespace is not [__proto__], the object handed to
    [combineReducers] is built by inserting the reducers one after the other
    under their namespaces. *)
Lemma combineNamespacedReducers_reduce reduxReducers (acc : gmap string Value) console :
  Forall (λ r, isFunction r = true) reduxReducers →
  Forall (λ r, namespaceKey host r ≠ "__proto__") reduxReducers →
  reduce
    (λ (indexedReduxReducers : ObjectLiteral) reduxReducer,
       let* namespace := lift (getProp host reduxReducer "reduxNamespace") in
       lift (setProp host indexedReduxReducers (toString host namespace) reduxReducer))
    reduxReducers (plain acc) console
  = (Returns (plain (foldl (λ m r, <[namespaceKey host r := r]> m) acc reduxReducers)),
     console).
Proof.
  revert acc. induction reduxReducers as [|r rs IH]; intros acc Hfun Hkeys; [done|].
  apply Forall_cons in Hfun as [Hr Hrs]. apply Forall_cons in Hkeys as [Hkey Hkeys].
  destruct (getProp_function r "reduxNamespace" Hr) as [n Hn].
  rewrite (namespaceKey_function _ _ Hn) in Hkey.
  simpl. unfold bind at 1. unfold bind at 1. unfold lift at 1 2. rewrite Hn.
  rewrite setProp_plain by done.
  rewrite (namespaceKey_function _ _ Hn). by apply IH.
Qed.

Lemma combineNamespacedReducers_foldl reduxReducers console :
  Forall (λ r, isFunction r = true) reduxReducers →
  Forall (λ r, namespaceKey host r ≠ "__proto__") reduxReducers →
  combineNamespacedReducers host reduxReducers console
  = (Returns (VObj (foldl (λ m r, <[namespaceKey host r := r]> m) ∅ reduxReducers)),
     console).
Proof.
  intros Hfun Hkeys. unfold combineNamespacedReducers.
  by rewrite (bind_returns _ _ _ _ _ (combineNamespacedReducers_reduce _ ∅ console Hfun Hkeys)).
Qed.

Lemma foldl_namespace_lookup_other (rs : list Value) (acc : gmap string Value) key :
  key ∉ namespaceKey host <$> rs →
  foldl (λ m r, <[namespaceKey host r := r]> m) acc rs !! key = acc !! key.
Proof.
  revert acc. induction rs as [|r rs IH]; intros acc Hnot; [done|].
  simpl. rewrite IH.
  - apply lookup_insert_ne. intros <-. apply Hnot. simpl. apply elem_of_cons. by left.
  - intros Hin. apply Hnot. simpl. apply elem_of_cons. by right.
Qed.

Lemma foldl_namespace_lookup_origin (rs : list Value) (acc : gmap string Value) key r :
  foldl (λ m r, <[namespaceKey host r := r]> m) acc rs !! key = Some r →
  acc !! key = Some r ∨ (r ∈ rs ∧ namespaceKey host r = key).
Proof.
  revert acc. induction rs as [|x rs IH]; intros acc H; [by left|].
  simpl in H. destruct (IH _ H) as [Hacc|[Hin Hkey]].
  - destruct (decide (namespaceKey host x = key)) as [Heq|Hne].
    + rewrite <- Heq, lookup_insert_eq in Hacc. injection Hacc as <-.
      right. split; [apply elem_of_cons; by left|done].
    + rewrite lookup_insert_ne in Hacc by done. by left.
  - right. split; [apply elem_of_cons; by right|done].
Qed.

(** C7.  On reducers whose namespaces are not [__proto__],
    [combineNamespacedReducers] never throws and writes nothing to the
    console.  In the object it hands to [combineReducers], the entry under a
    namespace is the last reducer, in argument order, that carries this
    namespace: a reducer passed earlier with the same namespace is overwritten
    without any check.  Every entry comes from an argument. *)
Theorem combineNamespacedReducers_last_wins (reduxReducers : list Value)
    (console : list string) :
  Forall (λ r, isFunction r = true) reduxReducers →
  Forall (λ r, namespaceKey host r ≠ "__proto__") reduxReducers →
  ∃ indexedReduxReducers,
    combineNamespacedReducers host reduxReducers console
    = (Returns (VObj indexedReduxReducers), console)
    ∧ (∀ before r after namespace,
         reduxReducers = before ++ r :: after →
         getProp host r "reduxNamespace" = Returns namespace →
         (∀ r' namespace', r' ∈ after →
            getProp host r' "reduxNamespace" = Returns namespace' →
            toString host namespace' ≠ toString host namespace) →
         indexedReduxReducers !! toString host namespace = Some r)
    ∧ (∀ key r, indexedReduxReducers !! key = Some r →
         r ∈ reduxReducers
         ∧ ∃ namespace, getProp host r "reduxNamespace" = Returns namespace
                        ∧ toString host namespace = key).
Proof.
  intros Hfun Hkeys. eexists. split; [by apply combineNamespacedReducers_foldl|]. split.
  - intros before r after namespace -> Hns Hafter.
    rewrite foldl_app. simpl. rewrite foldl_namespace_lookup_other.
    + rewrite (namespaceKey_function _ _ Hns). apply lookup_insert_eq.
    + intros (r' & Heq & Hin)%list_elem_of_fmap.
      apply Forall_app in Hfun as [_ Hfun]. apply Forall_cons in Hfun as [_ Hfun].
      rewrite Forall_forall in Hfun.
      destruct (getProp_function r' "reduxNamespace" (Hfun r' Hin)) as [n' Hn'].
      rewrite (namespaceKey_function _ _ Hn') in Heq.
      by apply (Hafter r' n' Hin Hn').
  - intros key r Hlookup.
    apply foldl_namespace_lookup_origin in Hlookup as [Hempty|[Hin Hkey]];
      [by rewrite lookup_empty in Hempty|].
    split; [done|]. rewrite Forall_forall in Hfun.
    destruct (getProp_function r "reduxNamespace" (Hfun r Hin)) as [n Hn].
    exists n. split; [done|]. by rewrite <- (namespaceKey_function _ _ Hn).
Qed.

(** ** checkConfigPrerequisiteSatisfied *)

(** The list of missing parameters is still empty when its length is tested:
    the outcome is that of the check of [config] alone. *)
Lemma checkConfigPrerequisiteSatisfied_config_only
    (connectorName connectorName' propName requiredConfigName config : Value) console :
  checkConfigPrerequisiteSatisfied host connectorName propName requiredConfigName
    config console
  = checkConfigPrerequisiteSatisfied host connectorName' propName requiredConfigName
      config console.
Proof. reflexivity. Qed.

(** When [config] is not an object, or [config[requiredConfigName]] is not a
    string, the call throws. *)
Lemma checkConfigPrerequisiteSatisfied_bad_config
    (connectorName propName requiredConfigName config : Value) console :
  (typeof config ≠ "object"
   ∨ ∀ v, getProp host config (toString host requiredConfigName) = Returns v →
          typeof v ≠ "string") →
  ∃ e, checkConfigPrerequisiteSatisfied host connectorName propName
         requiredConfigName config console = (Throws e, console).
Proof.
  intros H. unfold checkConfigPrerequisiteSatisfied, bind, lift, ret. simpl.
  destruct (String.eqb (typeof config) "object") eqn:Eobj; simpl.
  - destruct (getProp host config (toString host requiredConfigName)) as [v|e] eqn:Eget.
    + destruct H as [H|H]; [by apply String.eqb_eq in Eobj|].
      specialize (H v eq_refl).
      destruct (String.eqb (typeof v) "string") eqn:Estr;
        [by apply String.eqb_eq in Estr|]. simpl. by eexists.
    + by eexists.
  - by eexists.
Qed.

(** C5.  A falsy [connectorName] does not make the call throw: with the other
    parameters in order and the required field a string, the call returns
    [undefined]; so it does with a falsy [propName], and with an empty
    [requiredConfigName] that names a field of [config]. *)
Theorem checkConfigPrerequisiteSatisfied_falsy_names_pass (console : list string) :
  checkConfigPrerequisiteSatisfied host (VStr "") (VStr "puppyRecords") (VStr "max")
    (VObj {["max" := VStr "5"]}) console = (Returns VUndefined, console)
  ∧ checkConfigPrerequisiteSatisfied host VUndefined (VStr "puppyRecords") (VStr "max")
      (VObj {["max" := VStr "5"]}) console = (Returns VUndefined, console)
  ∧ checkConfigPrerequisiteSatisfied host (VStr "connectPuppyModel") VUndefined
      (VStr "max") (VObj {["max" := VStr "5"]}) console = (Returns VUndefined, console)
  ∧ checkConfigPrerequisiteSatisfied host (VStr "connectPuppyModel")
      (VStr "puppyRecords") (VStr "") (VObj {["" := VStr "5"]}) console
    = (Returns VUndefined, console).
Proof. repeat split. Qed.

(** ** createMapStateToPropsFunc *)

Lemma toString_connectedNames e : toString host e ∈ connectedNames host e.
Proof. destruct e; apply elem_of_cons; by left. Qed.

Lemma propName_connectedNames source target :
  toString host target ∈ connectedNames host (VAsPropRenamer source target).
Proof. apply elem_of_cons. right. apply elem_of_cons. by left. Qed.

Section StateMapping.

Context (overrides : gmap string Value) (config state ownProps : Value).

Lemma mapStateToPropsStep_override acc entry console :
  isFunction (objectGet overrides (toString host entry)) = true →
  mapStateToPropsStep host (VObj overrides) config state ownProps acc entry console
  = bind (hostCall host (objectGet overrides (toString host entry)) (VObj overrides)
            [state; ownProps; config])
      (λ value, lift (setProp host acc (toString host entry) value)) console.
Proof.
  intros Hf. unfold mapStateToPropsStep. unfold bind at 1. unfold lift at 1.
  cbn [getProp]. rewrite Hf. unfold bind, callHost. by rewrite Hf.
Qed.

End StateMapping.

Section StateMappingOfContainer.

Context (overrides state : gmap string Value) (config ownProps : Value).

Lemma mapStateToPropsStep_state acc name v console :
  isFunction (objectGet overrides name) = false → state !! name = Some v →
  mapStateToPropsStep host (VObj overrides) config (VMap state) ownProps
    acc (VStr name) console
  = lift (setProp host acc name v) console.
Proof.
  intros Ho Hs. unfold mapStateToPropsStep, andAlso, bind, lift, ret. simpl.
  by rewrite Ho, Hs.
Qed.

Lemma mapStateToPropsStep_renamed_state acc s tgt v console :
  isFunction (objectGet overrides (toString host (VAsPropRenamer (VStr s) tgt))) = false →
  state !! s = Some v →
  mapStateToPropsStep host (VObj overrides) config (VMap state) ownProps
    acc (VAsPropRenamer (VStr s) tgt) console
  = lift (setProp host acc (toString host tgt) v) console.
Proof.
  intros Ho Hs. unfold mapStateToPropsStep, andAlso, bind, lift, ret.
  cbn [getProp]. rewrite Ho. cbn. by rewrite Hs.
Qed.

Lemma mapStateToPropsStep_renamed_override acc s tgt f console :
  isFunction (objectGet overrides (toString host (VAsPropRenamer (VStr s) tgt))) = false →
  state !! s = None → overrides !! s = Some f → isFunction f = true →
  mapStateToPropsStep host (VObj overrides) config (VMap state) ownProps
    acc (VAsPropRenamer (VStr s) tgt) console
  = bind (hostCall host f (VObj overrides) [VMap state; ownProps; config])
      (λ value, lift (setProp host acc (toString host tgt) value)) console.
Proof.
  intros Ho Hs Hf Hfun. unfold mapStateToPropsStep, andAlso, bind, lift, ret.
  cbn [getProp]. rewrite Ho. cbn. rewrite Hs, Hf. cbn.
  rewrite (objectGet_own _ _ _ Hf). unfold callHost. by rewrite Hfun.
Qed.

Lemma mapStateToPropsStep_invalid acc entry console :
  isFunction (objectGet overrides (toString host entry)) = false →
  (∀ name, entry = VStr name → state !! name = None) →
  (∀ s tgt, entry = VAsPropRenamer (VStr s) tgt →
     state !! s = None ∧ overrides !! s = None) →
  mapStateToPropsStep host (VObj overrides) config (VMap state) ownProps
    acc entry console
  = (Returns acc,
     console ++ ["Warning: Attempted to map invalid state key name "
                 +:+ toString host
                       match entry with
                       | VAsPropRenamer actionOrStateIndex _ => actionOrStateIndex
                       | _ => entry
                       end]).
Proof.
  intros Ho Hstr Hren. unfold mapStateToPropsStep, andAlso, bind, lift, ret, warn.
  cbn [getProp]. rewrite Ho. cbn.
  destruct entry as [| | | |name| | | |src tgt| | | | | | | | | |]; cbn; try reflexivity.
  - by rewrite (Hstr _ eq_refl).
  - destruct src as [| | | |s| | | | | | | | | | | | | |]; cbn; try reflexivity.
    destruct (Hren _ _ eq_refl) as [Hs Hov]. by rewrite Hs, Hov.
Qed.

End StateMappingOfContainer.

Lemma createMapStateToPropsFunc_reduce ns (overrides globalState : gmap string Value)
    slice config ownProps items console :
  globalState !! toString host ns = Some slice → truthy slice = true →
  createMapStateToPropsFunc host ns (VObj overrides) (VArr items) config
    (VObj globalState) ownProps console
  = bind (reduce (mapStateToPropsStep host (VObj overrides) config slice ownProps)
            items (plain ∅))
      (λ newPropsObj, ret (objectValue newPropsObj)) console.
Proof.
  intros Hslice Htruthy. unfold createMapStateToPropsFunc.
  unfold bind at 1. unfold lift. simpl. by rewrite (objectGet_own _ _ _ Hslice), Htruthy.
Qed.

(** When the mapping over [entries] returned the object literal [acc], the
    mapping over [entries] followed by [entry] is the callback applied to
    [acc] and [entry]. *)
Lemma createMapStateToPropsFunc_snoc ns (overrides globalState acc : gmap string Value)
    slice config ownProps entries entry console console' :
  globalState !! toString host ns = Some slice → truthy slice = true →
  createMapStateToPropsFunc host ns (VObj overrides) (VArr entries) config
    (VObj globalState) ownProps console = (Returns (VObj acc), console') →
  createMapStateToPropsFunc host ns (VObj overrides) (VArr (entries ++ [entry])) config
    (VObj globalState) ownProps console
  = bind (mapStateToPropsStep host (VObj overrides) config slice ownProps (plain acc) entry)
      (λ newPropsObj, ret (objectValue newPropsObj)) console'.
Proof.
  intros Hslice Htruthy Hrun.
  rewrite createMapStateToPropsFunc_reduce with (slice := slice) in Hrun |- * by done.
  unfold bind, ret in Hrun.
  destruct (reduce _ entries (plain ∅) console) as [[acc'|e] c] eqn:Hreduce; [|done].
  injection Hrun as Hacc ->. apply objectValue_plain_inv in Hacc as ->.
  unfold bind at 1. by erewrite reduce_snoc by exact Hreduce.
Qed.

Lemma derive_plain (call : M Value) (acc : gmap string Value) key console :
  key ≠ "__proto__" →
  match bind call (λ value, lift (setProp host (plain acc) key value)) console with
  | (Returns newPropsObj, console') => ret (objectValue newPropsObj) console'
  | (Throws e, console') => (Throws e, console')
  end
  = bind call (λ value, ret (VObj (<[key := value]> acc))) console.
Proof.
  intros Hkey. unfold bind, lift, ret.
  destruct (call console) as [[value|e] c]; [|done].
  by rewrite setProp_plain.
Qed.

(** C1.  Let the global state hold the state container [state] under the
    namespace, and let [propsToConnect] be the array [entries] followed by
    [entry], where the state mapping over [entries] alone returns the object
    [acc].  Let [override] be what the overrides yield under [entry].  Then
    the state mapping resolves [entry] as follows, a prop name being any name
    but [__proto__].
    - When [override] is a function, it is called with the state container,
      the own props and the config, and what it returns is stored under
      [entry], whether or not the state container has that key.
    - Else, when [entry] is a string and a key of the state container, that
      entry of the container is stored under the same name.
    - Else, when [entry] is a renaming directive whose source is a key of the
      state container, that entry is stored under the directive's prop name.
    - Else, when [entry] is a renaming directive whose source is a key of the
      overrides that holds a function, this function is called and what it
      returns is stored under the directive's prop name.
    - Else, when the source of the directive is no key of the overrides, or
      [entry] is no directive, the mapping returns [acc], nothing is thrown,
      and one warning naming the entry is written to the console.
    Over no entries the mapping returns the empty object. *)
Theorem state_mapping_precedence (namespace config ownProps : Value)
    (overrides state globalState acc : gmap string Value)
    (entries : list Value) (entry : Value) (console console' : list string) :
  let mapState items :=
    createMapStateToPropsFunc host namespace (VObj overrides) (VArr items) config
      (VObj globalState) ownProps console in
  let derive f key :=
    bind (hostCall host f (VObj overrides) [VMap state; ownProps; config])
      (λ value, ret (VObj (<[key := value]> acc))) console' in
  let override := objectGet overrides (toString host entry) in
  globalState !! toString host namespace = Some (VMap state) →
  mapState entries = (Returns (VObj acc), console') →
  mapState [] = (Returns (VObj ∅), console)
  ∧ (isFunction override = true → toString host entry ≠ "__proto__" →
     mapState (entries ++ [entry]) = derive override (toString host entry))
  ∧ (∀ name v, entry = VStr name →
       isFunction override = false → state !! name = Some v → name ≠ "__proto__" →
       mapState (entries ++ [entry]) = (Returns (VObj (<[name := v]> acc)), console'))
  ∧ (∀ source target v, entry = VAsPropRenamer (VStr source) target →
       isFunction override = false → state !! source = Some v →
       toString host target ≠ "__proto__" →
       mapState (entries ++ [entry])
       = (Returns (VObj (<[toString host target := v]> acc)), console'))
  ∧ (∀ source target f, entry = VAsPropRenamer (VStr source) target →
       isFunction override = false → state !! source = None →
       overrides !! source = Some f → isFunction f = true →
       toString host target ≠ "__proto__" →
       mapState (entries ++ [entry]) = derive f (toString host target))
  ∧ (isFunction override = false →
     (∀ name, entry = VStr name → state !! name = None) →
     (∀ source target, entry = VAsPropRenamer (VStr source) target →
        state !! source = None ∧ overrides !! source = None) →
     mapState (entries ++ [entry])
     = (Returns (VObj acc),
        console' ++ ["Warning: Attempted to map invalid state key name "
                     +:+ toString host
                           match entry with
                           | VAsPropRenamer actionOrStateIndex _ => actionOrStateIndex
                           | _ => entry
                           end])).
Proof.
  intros mapState derive override Hslice Hrun. subst mapState derive override.
  cbv beta in *.
  pose proof (createMapStateToPropsFunc_snoc namespace overrides globalState acc
                (VMap state) config ownProps entries entry console console'
                Hslice eq_refl Hrun) as Hsnoc.
  split; [by rewrite createMapStateToPropsFunc_reduce with (slice := VMap state)|].
  split; [|split; [|split; [|split]]].
  - intros Hf Hkey. rewrite Hsnoc. unfold bind at 1.
    rewrite mapStateToPropsStep_override by done. by apply derive_plain.
  - intros name v -> Ho Hs Hkey. rewrite Hsnoc. unfold bind at 1.
    rewrite (mapStateToPropsStep_state overrides state config ownProps
               (plain acc) name v console' Ho Hs).
    unfold lift, ret. by rewrite setProp_plain.
  - intros source target v -> Ho Hs Hkey. rewrite Hsnoc. unfold bind at 1.
    rewrite (mapStateToPropsStep_renamed_state overrides state config ownProps
               (plain acc) source target v console' Ho Hs).
    unfold lift, ret. by rewrite setProp_plain.
  - intros source target f -> Ho Hs Hf Hfun Hkey. rewrite Hsnoc. unfold bind at 1.
    rewrite (mapStateToPropsStep_renamed_override overrides state config ownProps
               (plain acc) source target f console' Ho Hs Hf Hfun).
    by apply derive_plain.
  - intros Ho Hstr Hren. rewrite Hsnoc. unfold bind at 1.
    by rewrite (mapStateToPropsStep_invalid overrides state config ownProps
                  (plain acc) entry console' Ho Hstr Hren).
Qed.

(** ** The state mapping of a connector *)

(** The state mapping that a connector hands to [connect], and the one its
    member [curriedCreateMapStateToProps] returns, are closures of
    [createMapStateToPropsFunc]. *)
Lemma connector_mapStateToProps ns acts ovr props actions cfg console cc console' :
  connector host ns acts ovr props actions cfg console = (Returns cc, console') →
  mapStateToProps cc
  = VMapStateToProps ns ovr (withDefault props (VArr [])) (withDefault cfg (VObj ∅)).
Proof.
  unfold connector, bind, ret.
  destruct (createMapDispatchToPropsObj host acts _ console) as [[d|e] c]; [|done].
  by intros [= <- <-].
Qed.

Lemma curriedCreateMapStateToProps_closure ns acts ovr props cfg console :
  callMethod host (createNamespaceConnector ns acts ovr)
    "curriedCreateMapStateToProps" [props; cfg] console
  = (Returns (VMapStateToProps ns (withDefault ovr (VObj ∅)) props cfg), console).
Proof. reflexivity. Qed.

Lemma runMapStateToProps_closure ns ovr props cfg state ownProps console :
  runMapStateToProps host (VMapStateToProps ns ovr props cfg) state ownProps console
  = createMapStateToPropsFunc host ns ovr props cfg state ownProps console.
Proof. reflexivity. Qed.

(** ** The state mapping: a missing namespace, a request that is not an array *)

Lemma createMapStateToPropsFunc_no_slice ns ovr props cfg globalState own console slice :
  getProp host globalState (toString host ns) = Returns slice →
  truthy slice = false →
  createMapStateToPropsFunc host ns ovr props cfg globalState own console
  = (Throws (Error ("Unable to find state namespace '" +:+ toString host ns
       +:+ "'; Perhaps you forgot to add the namespaced reducer to your call to "
       +:+ "'combineNamespacedReducers'?")), console).
Proof.
  intros Hget Hfalsy. unfold createMapStateToPropsFunc, bind, lift.
  rewrite Hget, Hfalsy. reflexivity.
Qed.

Lemma createMapStateToPropsFunc_not_array ns ovr props cfg globalState own console slice :
  getProp host globalState (toString host ns) = Returns slice →
  truthy slice = true →
  isArray props = false →
  createMapStateToPropsFunc host ns ovr props cfg globalState own console
  = (Returns (VObj ∅), console).
Proof.
  intros Hget Htruthy Hprops. unfold createMapStateToPropsFunc, bind, lift.
  rewrite Hget, Htruthy. simpl. by destruct props.
Qed.

(** C3.  Let a connector be created over the namespace [N], where [N] is not
    the name of a member that every object inherits.  When the global state
    has no slice under [N], or a falsy one, the state mapping throws an
    [Error] whose message names [N], whatever props were requested, and
    nothing is written to the console.  When the slice is there and
    [propsToConnect] is not an array, the state mapping returns the empty
    object. *)
Theorem state_mapping_missing_namespace (N : string)
    (overrides propsToConnect config ownProps : Value)
    (globalState : gmap string Value) (console : list string) :
  ((∀ slice, globalState !! N = Some slice → truthy slice = false) →
   (globalState !! N = None → inheritedByObjects N = false) →
   createMapStateToPropsFunc host (VStr N) overrides propsToConnect config
     (VObj globalState) ownProps console
   = (Throws (Error ("Unable to find state namespace '" +:+ N
        +:+ "'; Perhaps you forgot to add the namespaced reducer to your call to "
        +:+ "'combineNamespacedReducers'?")), console))
  ∧
  (∀ slice, globalState !! N = Some slice → truthy slice = true →
   isArray propsToConnect = false →
   createMapStateToPropsFunc host (VStr N) overrides propsToConnect config
     (VObj globalState) ownProps console
   = (Returns (VObj ∅), console)).
Proof.
  split.
  - intros Hslice Hinherited.
    erewrite createMapStateToPropsFunc_no_slice; [reflexivity|simpl; reflexivity|].
    destruct (globalState !! N) as [slice|] eqn:E.
    + rewrite (objectGet_own _ _ _ E). by apply Hslice.
    + by rewrite objectGet_not_inherited by auto.
  - intros slice Hslice Htruthy Hprops.
    eapply createMapStateToPropsFunc_not_array; [|exact Htruthy|exact Hprops].
    simpl. by rewrite (objectGet_own _ _ _ Hslice).
Qed.

(** ** createMapDispatchToPropsObj *)

Lemma mapDispatchToPropsStep_direct (allActions : gmap string Value) acc name console :
  truthy (objectGet allActions name) = true →
  mapDispatchToPropsStep host (VObj allActions) acc (VStr name) console
  = lift (setProp host acc name (objectGet allActions name)) console.
Proof.
  intros Ht. unfold mapDispatchToPropsStep, andAlso, bind, lift, ret. simpl.
  by rewrite Ht.
Qed.

Lemma mapDispatchToPropsStep_renamed (allActions : gmap string Value) acc
    src tgt console :
  truthy (objectGet allActions (toString host src)) = true →
  mapDispatchToPropsStep host (VObj allActions) acc (VAsPropRenamer src tgt) console
  = lift (setProp host acc (toString host tgt) (objectGet allActions (toString host src)))
      console.
Proof.
  intros Ht. unfold mapDispatchToPropsStep, andAlso, bind, lift, ret. simpl.
  by rewrite Ht.
Qed.

Lemma mapDispatchToPropsStep_invalid (allActions : gmap string Value) acc e console :
  (∀ name, e = VStr name → truthy (objectGet allActions name) = false) →
  (∀ src tgt, e = VAsPropRenamer src tgt →
     truthy (objectGet allActions (toString host src)) = false) →
  mapDispatchToPropsStep host (VObj allActions) acc e console
  = (Returns acc,
     console ++ ["Warning: Attempted to map invalid action name " +:+ toString host e]).
Proof.
  intros Hstr Hren. unfold mapDispatchToPropsStep, andAlso, bind, lift, ret, warn.
  destruct e; simpl; try reflexivity.
  - by rewrite (Hstr _ eq_refl).
  - by rewrite (Hren _ _ eq_refl).
Qed.

(** The callback either warns and returns the object as it is, or assigns a
    truthy value that the action table yields, under the name of the entry or
    under the prop name of the directive. *)
Lemma mapDispatchToPropsStep_cases (allActions : gmap string Value) acc e console :
  mapDispatchToPropsStep host (VObj allActions) acc e console
  = (Returns acc,
     console ++ ["Warning: Attempted to map invalid action name " +:+ toString host e])
  ∨ ∃ key name,
      mapDispatchToPropsStep host (VObj allActions) acc e console
      = lift (setProp host acc key (objectGet allActions name)) console
      ∧ truthy (objectGet allActions name) = true
      ∧ (e = VStr key
         ∨ ∃ source target, e = VAsPropRenamer source target ∧ toString host target = key).
Proof.
  destruct e;
    try (left; apply mapDispatchToPropsStep_invalid; intros; discriminate).
  - destruct (truthy (objectGet allActions s)) eqn:Et.
    + right. exists s, s. split; [by apply mapDispatchToPropsStep_direct|eauto].
    + left. apply mapDispatchToPropsStep_invalid; [by intros ? [= <-]|discriminate].
  - destruct (truthy (objectGet allActions (toString host e1))) eqn:Et.
    + right. exists (toString host e2), (toString host e1).
      split; [by apply mapDispatchToPropsStep_renamed|eauto 6].
    + left. apply mapDispatchToPropsStep_invalid; [discriminate|by intros ?? [= <- <-]].
Qed.

Lemma connectedNames_key e key :
  "__proto__" ∉ connectedNames host e →
  (e = VStr key
   ∨ ∃ source target, e = VAsPropRenamer source target ∧ toString host target = key) →
  key ≠ "__proto__".
Proof.
  intros Hnot [->|(source & target & -> & <-)] Heq; apply Hnot.
  - rewrite Heq. apply elem_of_cons. by left.
  - rewrite <- Heq. apply propName_connectedNames.
Qed.

(** When no entry can be connected under [__proto__], the callback returns an
    object literal over the whole array. *)
Lemma mapDispatchToProps_reduce_total (allActions acc : gmap string Value) items console :
  Forall (λ e, "__proto__" ∉ connectedNames host e) items →
  ∃ acc' warnings,
    reduce (mapDispatchToPropsStep host (VObj allActions)) items (plain acc) console
    = (Returns (plain acc'), console ++ warnings).
Proof.
  revert acc console.
  induction items as [|e items IH]; intros acc console Hitems.
  - exists acc, []. by rewrite app_nil_r.
  - apply Forall_cons in Hitems as [He Hitems].
    destruct (mapDispatchToPropsStep_cases allActions (plain acc) e console)
      as [Hwarn|(key & name & Hadd & _ & Hentry)].
    + set (w := "Warning: Attempted to map invalid action name " +:+ toString host e)
        in Hwarn.
      destruct (IH acc (console ++ [w]) Hitems) as (acc2 & w2 & H2).
      exists acc2, (w :: w2). simpl. rewrite (bind_returns _ _ _ _ _ Hwarn).
      rewrite H2. by rewrite <- app_assoc.
    + unfold lift in Hadd.
      rewrite setProp_plain in Hadd by (by eapply connectedNames_key).
      destruct (IH (<[key := objectGet allActions name]> acc) console Hitems)
        as (acc2 & w2 & H2).
      exists acc2, w2. simpl. by rewrite (bind_returns _ _ _ _ _ Hadd).
Qed.

(** C8.  Let [actionsToConnect] be the array [entries] followed by [entry],
    none of [entries] being connected under the prop name [__proto__].  The
    dispatch mapping over [entries] does not throw.  With [acc] the object
    obtained from [entries] alone, and a prop name being any name but
    [__proto__]: when [entry] is a string under which the action table yields
    a truthy value, the result is [acc] with this value under the name; when
    [entry] is a renaming directive under whose source the action table yields
    a truthy value, the result is [acc] with this value under the directive's
    prop name; otherwise the result is [acc] and one more warning is written
    to the console.  For no entries at all the object is empty and nothing is
    written. *)
Theorem dispatch_mapping_selects_actions (allActions : gmap string Value)
    (entries : list Value) (entry : Value) (console : list string) :
  Forall (λ e, "__proto__" ∉ connectedNames host e) entries →
  createMapDispatchToPropsObj host (VObj allActions) (VArr []) console
  = (Returns (VObj ∅), console)
  ∧ ∃ acc warnings,
      createMapDispatchToPropsObj host (VObj allActions) (VArr entries) console
      = (Returns (VObj acc), console ++ warnings)
      ∧ (∀ name, entry = VStr name →
           truthy (objectGet allActions name) = true → name ≠ "__proto__" →
           createMapDispatchToPropsObj host (VObj allActions)
             (VArr (entries ++ [entry])) console
           = (Returns (VObj (<[name := objectGet allActions name]> acc)),
              console ++ warnings))
      ∧ (∀ src tgt, entry = VAsPropRenamer src tgt →
           truthy (objectGet allActions (toString host src)) = true →
           toString host tgt ≠ "__proto__" →
           createMapDispatchToPropsObj host (VObj allActions)
             (VArr (entries ++ [entry])) console
           = (Returns (VObj (<[toString host tgt
                               := objectGet allActions (toString host src)]> acc)),
              console ++ warnings))
      ∧ ((∀ name, entry = VStr name → truthy (objectGet allActions name) = false) →
         (∀ src tgt, entry = VAsPropRenamer src tgt →
            truthy (objectGet allActions (toString host src)) = false) →
         createMapDispatchToPropsObj host (VObj allActions)
           (VArr (entries ++ [entry])) console
         = (Returns (VObj acc),
            console ++ warnings
            ++ ["Warning: Attempted to map invalid action name "
                +:+ toString host entry])).
Proof.
  intros Hentries. split; [reflexivity|].
  destruct (mapDispatchToProps_reduce_total allActions ∅ entries console Hentries)
    as (acc & warnings & Hrun).
  exists acc, warnings. unfold createMapDispatchToPropsObj.
  split; [by rewrite (bind_returns _ _ _ _ _ Hrun)|].
  split; [|split].
  - intros name -> Ht Hkey. unfold bind. erewrite reduce_snoc by exact Hrun.
    rewrite mapDispatchToPropsStep_direct by done.
    unfold lift. by rewrite setProp_plain.
  - intros src tgt -> Ht Hkey. unfold bind. erewrite reduce_snoc by exact Hrun.
    rewrite mapDispatchToPropsStep_renamed by done.
    unfold lift. by rewrite setProp_plain.
  - intros Hstr Hren. unfold bind. erewrite reduce_snoc by exact Hrun.
    rewrite mapDispatchToPropsStep_invalid by done. by rewrite app_assoc.
Qed.

(** ** The dispatch mapping when no actions are requested *)

Lemma createMapDispatchToPropsObj_nil acts console :
  createMapDispatchToPropsObj host acts (VArr []) console = (Returns (VObj ∅), console).
Proof. reflexivity. Qed.

(** C9.  With [actionsToConnect] undefined, or not passed at all, the
    connector hands [connect] the empty object as dispatch mapping, and so
    does its member [curriedCreateMapDispatchToProps]; neither writes to the
    console nor throws. *)
Theorem undefined_actions_give_empty_dispatch
    (namespace actions overrides propsToConnect config : Value)
    (console : list string) :
  let c := createNamespaceConnector namespace actions overrides in
  (∃ cc, connector host namespace
           (withDefault actions (VObj ∅)) (withDefault overrides (VObj ∅))
           propsToConnect VUndefined config console = (Returns cc, console)
         ∧ mapDispatchToProps cc = VObj ∅)
  ∧ callMethod host c "curriedCreateMapDispatchToProps" [VUndefined] console
    = (Returns (VObj ∅), console)
  ∧ callMethod host c "curriedCreateMapDispatchToProps" [] console
    = (Returns (VObj ∅), console)
  ∧ orElse VUndefined (VArr []) = VArr [].
Proof.
  repeat split.
  eexists. split; reflexivity.
Qed.

(** ** combineConnectors: the check of the first argument *)

(** C6.  When the first argument of [combineConnectors] is an array whose
    first element is an array, the call throws the "Invalid first argument"
    [Error] at once: no builder is returned and the console is as it was, so
    no connector was asked for a state or a dispatch mapping. *)
Theorem combineConnectors_nested_array (inner rest more : list Value)
    (console : list string) :
  combineConnectors host (VArr (VArr inner :: rest) :: more) console
  = (Throws (Error ("Invalid first argument in call to `combineConnectors`; "
                    +:+ "Use multiple arguments instead of two-dimensional Array")),
     console).
Proof.
  unfold combineConnectors, andAlso, bind, lift, arg. simpl.
  rewrite indexed_head. reflexivity.
Qed.

(** ** combineConnectors without arguments *)

Lemma objectAssign_nil : objectAssign host [] = Throws TypeError.
Proof. reflexivity. Qed.

(** C10.  [combineConnectors()] returns a builder whose list of dispatch
    objects holds one empty object and whose list of state mappers is empty.
    Connecting a component right away succeeds: [Object.assign] is applied to
    a list that starts with an empty object, never to no argument (which
    throws), the combined state mapper returns the empty object for every
    state and own props, and the combined dispatch object is empty. *)
Theorem combineConnectors_no_arguments (TargetComponent : Value)
    (console : list string) :
  ∃ b bound,
    combineConnectors host [] console = (Returns b, console)
    ∧ stateMappers b = []
    ∧ mappedDispatches b = [VObj ∅]
    ∧ objectAssign host [] = Throws TypeError
    ∧ combinedConnectors host b TargetComponent console = (Returns (bound, b), console)
    ∧ mapDispatchToProps (call bound) = VObj ∅
    ∧ (∀ state ownProps console',
         combinedMapStateToPropsFuncs host (stateMappers b) state ownProps console'
         = lift (objectAssign host [VObj ∅]) console')
    ∧ (∀ state ownProps console',
         runMapStateToProps host (mapStateToProps (call bound)) state ownProps console'
         = (Returns (VObj ∅), console')).
Proof.
  do 2 eexists. repeat split.
Qed.


(** ** Object.assign *)

Section Assign.

Context (key : string).

Lemma assign_lookup_none target sources :
  (∀ source, source ∈ sources → ownEnumerable host source !! key = None) →
  foldl (assignSource host) target sources !! key = target !! key.
Proof.
  revert target. induction sources as [|s sources IH]; intros target Hnone; [done|].
  simpl. rewrite IH.
  - unfold assignSource. rewrite lookup_union_r; [done|]. apply Hnone, elem_of_cons. by left.
  - intros source Hin. apply Hnone, elem_of_cons. by right.
Qed.

Lemma assign_lookup_last target before source after value :
  ownEnumerable host source !! key = Some value →
  (∀ later, later ∈ after → ownEnumerable host later !! key = None) →
  foldl (assignSource host) target (before ++ source :: after) !! key = Some value.
Proof.
  intros Hsource Hafter. rewrite foldl_app. simpl.
  rewrite assign_lookup_none by done.
  unfold assignSource at 1. by apply lookup_union_Some_l.
Qed.

Lemma assign_lookup_origin target sources value :
  foldl (assignSource host) target sources !! key = Some value →
  target !! key = Some value
  ∨ ∃ source, source ∈ sources ∧ is_Some (ownEnumerable host source !! key).
Proof.
  revert target. induction sources as [|s sources IH]; intros target H; [by left|].
  simpl in H. destruct (IH _ H) as [Hhere|(source & Hin & Hsome)].
  - unfold assignSource in Hhere. apply lookup_union_Some_raw in Hhere as [Hs|[_ Ht]].
    + right. exists s. split; [apply elem_of_cons; by left|eauto].
    + by left.
  - right. exists source. split; [apply elem_of_cons; by right|done].
Qed.

End Assign.

Lemma objectAssign_merges (seed : gmap string Value) sources :
  (∀ key, is_Some (seed !! key) →
     ∃ source, source ∈ sources ∧ is_Some (ownEnumerable host source !! key)) →
  ∃ merged, objectAssign host (VObj seed :: sources) = Returns (VObj merged)
            ∧ shallowMergeOf host sources merged
            ∧ ∀ key, is_Some (merged !! key) →
                ∃ source, source ∈ sources ∧ is_Some (ownEnumerable host source !! key).
Proof.
  intros Hcover. eexists. split; [reflexivity|]. split.
  - intros key. split.
    + intros before source after value -> Hsource Hafter.
      by apply assign_lookup_last.
    + intros Hnone. rewrite assign_lookup_none by done.
      destruct (seed !! key) as [v|] eqn:E; [|done].
      destruct (Hcover key) as (source & Hin & [v' Hv']); [eauto|].
      rewrite (Hnone source Hin) in Hv'. discriminate.
  - intros key [v Hv]. apply assign_lookup_origin in Hv as [Hseed|Hsource]; [|done].
    apply Hcover. eauto.
Qed.

(** ** combineConnectors: what push and connect add *)

Lemma pushFunc_appends b c p a cfg console b' console' :
  pushFunc host b c p a cfg console = (Returns b', console') →
  ∃ added addedDispatches,
    stateMappers b' = stateMappers b ++ added
    ∧ mappedDispatches b' = mappedDispatches b ++ addedDispatches
    ∧ length added = (if truthy p then 1 else 0)
    ∧ length addedDispatches = (if truthy a then 1 else 0).
Proof.
  unfold pushFunc. unfold bind at 1.
  destruct (truthy p).
  - unfold bind at 1.
    destruct (callMethod host c "curriedCreateMapStateToProps" [p; cfg] console)
      as [[m|e] c1]; [|done].
    unfold ret at 1. destruct (truthy a).
    + unfold bind, ret.
      destruct (callMethod host c "curriedCreateMapDispatchToProps" [a] c1)
        as [[d|e] c2]; [|done].
      intros [= <- <-]. exists [m], [d]. by simpl.
    + intros [= <- <-]. exists [m], []. simpl. by rewrite app_nil_r.
  - unfold ret at 1. destruct (truthy a).
    + unfold bind, ret.
      destruct (callMethod host c "curriedCreateMapDispatchToProps" [a] console)
        as [[d|e] c2]; [|done].
      intros [= <- <-]. exists [], [d]. simpl. by rewrite app_nil_r.
    + intros [= <- <-]. exists [], []. by rewrite !app_nil_r.
Qed.


Lemma connectFunc_appends b customState customDispatch customMerge customOptions :
  let b' := connectFunc b customState customDispatch customMerge customOptions in
  stateMappers b'
  = stateMappers b ++ (if truthy customState then [customState] else [])
  ∧ mappedDispatches b'
    = mappedDispatches b ++ (if truthy customDispatch then [customDispatch] else [])
  ∧ mergeProps b' = customMerge
  ∧ options b' = customOptions.
Proof.
  unfold connectFunc.
  destruct (truthy customState), (truthy customDispatch); simpl;
    by rewrite ?app_nil_r.
Qed.

Lemma reduce_push_appends entries b console b' console' :
  reduce
    (λ b entry,
       let* items := lift (destructure entry) in
       pushFunc host b (arg items 0) (arg items 1) (arg items 2) (arg items 3))
    entries b console = (Returns b', console') →
  ∃ addedDispatches, mappedDispatches b' = mappedDispatches b ++ addedDispatches.
Proof.
  revert b console. induction entries as [|entry entries IH]; intros b console.
  - intros [= <- <-]. exists []. by rewrite app_nil_r.
  - simpl. unfold bind at 1. unfold bind at 1. unfold lift at 1.
    destruct (destructure entry) as [items|e]; [|done].
    destruct (pushFunc host b _ _ _ _ console) as [[b1|e] c1] eqn:Epush; [|done].
    intros Hrest. apply IH in Hrest as [more Hmore].
    apply pushFunc_appends in Epush as (_ & ds & _ & Hds & _).
    exists (ds ++ more). by rewrite Hmore, Hds, app_assoc.
Qed.

Lemma combineConnectors_seed connectorsAndParams console b console' :
  combineConnectors host connectorsAndParams console = (Returns b, console') →
  ∃ dispatches, mappedDispatches b = VObj ∅ :: dispatches.
Proof.
  unfold combineConnectors. unfold bind at 1.
  destruct (andAlso _ _ console) as [[[|]|e] c1]; [done| |done].
  intros Hreduce. apply reduce_push_appends in Hreduce as [ds Hds].
  exists ds. by rewrite Hds.
Qed.

(** The object at the head of the dispatch objects of a builder only has keys
    that one of the objects behind it has. *)
Lemma Built_seed b :
  Built host b →
  ∃ seed dispatches,
    mappedDispatches b = VObj seed :: dispatches
    ∧ ∀ key, is_Some (seed !! key) →
        ∃ source, source ∈ dispatches
                  ∧ is_Some (ownEnumerable host source !! key).
Proof.
  induction 1 as
    [args console b console' Hnew
    |b c p a cfg console b' console' _ IH Hpush
    |b cs cd cm co _ IH
    |b T console bound b' console' _ IH Happly].
  - apply combineConnectors_seed in Hnew as [ds Hds].
    exists ∅, ds. split; [done|]. intros key [v Hv]. by rewrite lookup_empty in Hv.
  - destruct IH as (seed & ds & Hb & Hcover).
    apply pushFunc_appends in Hpush as (_ & more & _ & Hmore & _).
    exists seed, (ds ++ more). split; [by rewrite Hmore, Hb|].
    intros key Hkey. destruct (Hcover key Hkey) as (source & Hin & Hsome).
    exists source. split; [apply elem_of_app; by left|done].
  - destruct IH as (seed & ds & Hb & Hcover).
    destruct (connectFunc_appends b cs cd cm co) as (_ & Hmore & _).
    eexists seed, _. split; [by rewrite Hmore, Hb|].
    intros key Hkey. destruct (Hcover key Hkey) as (source & Hin & Hsome).
    exists source. split; [apply elem_of_app; by left|done].
  - destruct IH as (seed & ds & Hb & Hcover).
    destruct (objectAssign_merges seed ds Hcover) as (merged & Hassign & _ & Hmerged).
    unfold combinedConnectors, bind, lift, ret in Happly.
    rewrite Hb, Hassign in Happly. injection Happly as <- <- <-.
    by exists merged, ds.
Qed.

Lemma combineConnectors_snoc connectorsAndParams entry console :
  connectorsAndParams ≠ [] →
  combineConnectors host (connectorsAndParams ++ [entry]) console
  = bind (combineConnectors host connectorsAndParams)
      (λ b, let* items := lift (destructure entry) in
            pushFunc host b (arg items 0) (arg items 1) (arg items 2) (arg items 3))
      console.
Proof.
  intros Hne. unfold combineConnectors.
  assert (arg (connectorsAndParams ++ [entry]) 0 = arg connectorsAndParams 0) as ->
    by (by destruct connectorsAndParams).
  set (check := andAlso _ _).
  set (push := λ (b : Builder) (entry : Value), bind _ _).
  set (b0 := Build_Builder _ _ _ _).
  destruct (check console) as [[nested|e] c1] eqn:Echeck.
  - rewrite (bind_returns _ _ _ _ _ Echeck). destruct nested.
    + symmetry. eapply bind_throws. by rewrite (bind_returns _ _ _ _ _ Echeck).
    + destruct (reduce push connectorsAndParams b0 c1) as [[b|e] c2] eqn:Ereduce.
      * rewrite (reduce_snoc _ _ _ _ _ _ _ Ereduce).
        by rewrite (bind_returns (bind check _) _ console b c2)
          by (by rewrite (bind_returns _ _ _ _ _ Echeck)).
      * rewrite reduce_app, (bind_throws _ _ _ _ _ Ereduce).
        symmetry. eapply bind_throws. by rewrite (bind_returns _ _ _ _ _ Echeck).
  - rewrite (bind_throws _ _ _ _ _ Echeck).
    erewrite (bind_throws (bind check _)); [done|].
    by rewrite (bind_throws _ _ _ _ _ Echeck).
Qed.





(** ** Further properties of the reducers *)

(** X1.  The reducer tests for truthiness what the table yields under the
    action's type, its own entry or else the member that every object
    inherits, before it calls it.  A falsy value counts as no handler, and the
    state is returned; a value that is truthy and not a function makes the
    call throw a TypeError; so does an action that is undefined or null.  The
    initial state replaces an undefined state only: a null state is handed on
    as null. *)
Theorem reducer_handler_edge_cases (namespace initialState state : Value)
    (reducerFunctions action : gmap string Value) (console : list string) :
  let r := createNamespacedReducer namespace initialState (VObj reducerFunctions) in
  let handler :=
    objectGet reducerFunctions (toString host (objectGet action "type")) in
  (truthy handler = false →
   callFunction host r VUndefined [state; VObj action] console
   = (Returns (match state with VUndefined => initialState | _ => state end), console))
  ∧ (truthy handler = false →
     callFunction host r VUndefined [VNull; VObj action] console
     = (Returns VNull, console))
  ∧ (truthy handler = true → isFunction handler = false →
     callFunction host r VUndefined [state; VObj action] console
     = (Throws TypeError, console))
  ∧ callFunction host r VUndefined [state; VUndefined] console
    = (Throws TypeError, console)
  ∧ callFunction host r VUndefined [state; VNull] console
    = (Throws TypeError, console).
Proof.
  intros r handler. subst r.
  split; [|split; [|split; [|split]]]; try reflexivity.
  - intros Hfalsy. simpl. unfold reducer, bind, lift. simpl.
    fold handler. by rewrite Hfalsy.
  - intros Hfalsy. simpl. unfold reducer, bind, lift. simpl.
    fold handler. by rewrite Hfalsy.
  - intros Htruthy Hfun. simpl. unfold reducer, bind, lift, callHost. simpl.
    fold handler. by rewrite Htruthy, Hfun.
Qed.

(** X2.  When the reducers carry namespaces with pairwise different keys, none
    of them [__proto__], the object handed to [combineReducers] holds every
    one of them under its own namespace and has as many entries as there are
    reducers: nothing is lost. *)
Theorem combineNamespacedReducers_distinct_namespaces (reduxReducers : list Value)
    (console : list string) :
  Forall (λ r, isFunction r = true) reduxReducers →
  Forall (λ r, namespaceKey host r ≠ "__proto__") reduxReducers →
  NoDup (namespaceKey host <$> reduxReducers) →
  ∃ indexedReduxReducers,
    combineNamespacedReducers host reduxReducers console
    = (Returns (VObj indexedReduxReducers), console)
    ∧ (∀ r, r ∈ reduxReducers →
         indexedReduxReducers !! namespaceKey host r = Some r)
    ∧ size indexedReduxReducers = length reduxReducers.
Proof.
  intros Hfun Hkeys Hdistinct. eexists.
  split; [by apply combineNamespacedReducers_foldl|].
  clear Hfun Hkeys.
  assert (∀ acc : gmap string Value,
    (∀ r, r ∈ reduxReducers → acc !! namespaceKey host r = None) →
    (∀ r, r ∈ reduxReducers →
       foldl (λ m r, <[namespaceKey host r := r]> m) acc reduxReducers
         !! namespaceKey host r = Some r)
    ∧ size (foldl (λ m r, <[namespaceKey host r := r]> m) acc reduxReducers)
      = size acc + length reduxReducers) as Hgen.
  { induction reduxReducers as [|x rs IH]; intros acc Hfresh.
    - split; [by intros r Hin%elem_of_nil|]. simpl. lia.
    - simpl in Hdistinct. apply NoDup_cons in Hdistinct as [Hx Hrs].
      destruct (IH Hrs (<[namespaceKey host x := x]> acc)) as [Hlookup Hsize].
      { intros r Hin. rewrite lookup_insert_ne.
        - apply Hfresh, elem_of_cons. by right.
        - intros Heq. apply Hx. rewrite Heq. by apply list_elem_of_fmap_2. }
      split.
      + intros r [->|Hin]%elem_of_cons; [|by apply Hlookup].
        simpl. rewrite foldl_namespace_lookup_other by done. apply lookup_insert_eq.
      + simpl. rewrite Hsize, map_size_insert_None; [lia|].
        apply Hfresh, elem_of_cons. by left. }
  destruct (Hgen ∅) as [Hlookup Hsize]; [intros; apply lookup_empty|].
  split; [done|]. by rewrite Hsize, map_size_empty.
Qed.

(** ** Further properties of checkConfigPrerequisiteSatisfied *)

Lemma typeof_string v : typeof v = "string" ↔ ∃ s, v = VStr s.
Proof.
  split; [|by intros [s ->]]. destruct v; try discriminate. eauto.
Qed.

(** X3.  Whatever the three names are, [checkConfigPrerequisiteSatisfied]
    returns [undefined] exactly when [config] is an object that holds a string
    under the required name.  When [config] is not of type object, or holds
    something else than a string there, it throws the [Error] that names the
    prop and the required field; a null [config] makes the property read throw
    a TypeError.  The console is never written. *)
Theorem checkConfigPrerequisiteSatisfied_outcomes
    (connectorName propName requiredConfigName config : Value)
    (console : list string) :
  let outcome :=
    checkConfigPrerequisiteSatisfied host connectorName propName requiredConfigName
      config console in
  let required := getProp host config (toString host requiredConfigName) in
  let errorStart :=
    "In `" +:+ toString host propName
    +:+ "` override in `connectProductListProductsModel`." in
  let missing :=
    Error (errorStart +:+ "  Config property `" +:+ toString host requiredConfigName
           +:+ "` is required but not specified") in
  (outcome = (Returns VUndefined, console)
   ↔ typeof config = "object" ∧ ∃ s, required = Returns (VStr s))
  ∧ (typeof config ≠ "object" → outcome = (Throws missing, console))
  ∧ (∀ v, typeof config = "object" → required = Returns v → typeof v ≠ "string" →
       outcome = (Throws missing, console))
  ∧ (config = VNull → outcome = (Throws TypeError, console)).
Proof.
  intros outcome required errorStart missing. subst outcome required errorStart missing.
  unfold checkConfigPrerequisiteSatisfied, bind, lift, ret, throw. simpl.
  destruct (String.eqb (typeof config) "object") eqn:Eobj; simpl.
  - apply String.eqb_eq in Eobj.
    destruct (getProp host config (toString host requiredConfigName)) as [v|e] eqn:Eget.
    + destruct (String.eqb (typeof v) "string") eqn:Estr; simpl.
      * apply String.eqb_eq in Estr. apply typeof_string in Estr as [s ->].
        split; [|split; [|split]]; [split; eauto|done| |by intros ->].
        intros v _ [= <-]. done.
      * apply String.eqb_neq in Estr.
        split; [|split; [|split]]; [|done| |by intros ->].
        -- split; [discriminate|]. intros (_ & s & [= ->]). by destruct Estr.
        -- by intros v' _ [= <-] _.
    + split; [|split; [|split]]; [|done|discriminate|].
      * split; [discriminate|]. by intros (_ & s & ?).
      * intros ->. simpl in Eget. by injection Eget as <-.
  - apply String.eqb_neq in Eobj.
    split; [|split; [|split]]; [| |done|by intros ->].
    + split; [discriminate|]. by intros [? _].
    + done.
Qed.

(** ** Further properties of the dispatch mapping *)

(** X4.  For any object literal as action table, and any array of entries
    none of which can be connected under the prop name [__proto__], the
    dispatch mapping returns an object and only appends to the console.
    Every property of that object is a truthy value that the action table
    yields under some name, stored under the name of a requested entry or
    under the prop name of a requested directive; and the properties and the
    warnings together are at most as many as the entries. *)
Theorem dispatch_mapping_exposes_table_actions_only (allActions : gmap string Value)
    (entries : list Value) (console : list string) :
  Forall (λ e, "__proto__" ∉ connectedNames host e) entries →
  ∃ mapped warnings,
    createMapDispatchToPropsObj host (VObj allActions) (VArr entries) console
    = (Returns (VObj mapped), console ++ warnings)
    ∧ (∀ key action, mapped !! key = Some action →
         truthy action = true
         ∧ (∃ name, objectGet allActions name = action)
         ∧ ∃ e, e ∈ entries
                ∧ (e = VStr key
                   ∨ ∃ source target,
                       e = VAsPropRenamer source target ∧ toString host target = key))
    ∧ (size mapped + length warnings ≤ length entries)%nat.
Proof.
  unfold createMapDispatchToPropsObj.
  induction entries as [|e entries IH] using rev_ind; intros Hentries.
  - exists ∅, []. split; [by rewrite app_nil_r|]. split; [|done].
    intros key action H. by rewrite lookup_empty in H.
  - apply Forall_app in Hentries as [Hbefore He]. rewrite Forall_singleton in He.
    destruct (IH Hbefore) as (mapped & warnings & Hrun & Hsound & Hcount).
    assert (reduce (mapDispatchToPropsStep host (VObj allActions)) entries (plain ∅) console
            = (Returns (plain mapped), console ++ warnings)) as Hreduce.
    { unfold bind, ret in Hrun.
      destruct (reduce _ entries (plain ∅) console) as [[m|?] c]; [|done].
      injection Hrun as Hm ->. by apply objectValue_plain_inv in Hm as ->. }
    clear Hrun.
    destruct (mapDispatchToPropsStep_cases allActions (plain mapped) e (console ++ warnings))
      as [Hwarn|(key & name & Hadd & Htruthy & Hentry)].
    + exists mapped,
        (warnings
         ++ ["Warning: Attempted to map invalid action name " +:+ toString host e]).
      split; [|split].
      * unfold bind. erewrite reduce_snoc by exact Hreduce. rewrite Hwarn.
        by rewrite <- app_assoc.
      * intros key action H. destruct (Hsound key action H) as (? & ? & e' & Hin & He').
        split; [done|]. split; [done|]. exists e'. split; [|done].
        apply elem_of_app. by left.
      * rewrite !length_app. simpl. lia.
    + unfold lift in Hadd.
      rewrite setProp_plain in Hadd by (by eapply connectedNames_key).
      exists (<[key := objectGet allActions name]> mapped), warnings.
      split; [|split].
      * unfold bind. erewrite reduce_snoc by exact Hreduce. by rewrite Hadd.
      * intros key' action' H.
        destruct (decide (key = key')) as [<-|Hne].
        -- rewrite lookup_insert_eq in H. injection H as <-.
           split; [done|]. split; [eauto|]. exists e. split; [|done].
           apply elem_of_app. right. by apply list_elem_of_singleton.
        -- rewrite lookup_insert_ne in H by done.
           destruct (Hsound key' action' H) as (? & ? & e' & Hin & He').
           split; [done|]. split; [done|]. exists e'. split; [|done].
           apply elem_of_app. by left.
      * rewrite length_app. simpl.
        pose proof (map_size_insert key (objectGet allActions name) mapped) as Hsize.
        destruct (mapped !! key); simpl in Hsize; unfold id in Hsize; lia.
Qed.

(** ** Further properties of the state mapping *)

Lemma connectedNames_elem e key :
  key ∈ connectedNames host e →
  toString host e = key
  ∨ ∃ source target, e = VAsPropRenamer source target ∧ toString host target = key.
Proof.
  destruct e; simpl; intros Hin;
    repeat (apply elem_of_cons in Hin as [->|Hin]; [eauto 6|]);
    by apply elem_of_nil in Hin.
Qed.

(** What the callback assigns, it assigns under the entry's own name or under
    the prop name of the directive. *)
Lemma mapStateToPropsStep_writes ovr cfg state own acc e console acc' console' :
  mapStateToPropsStep host ovr cfg state own acc e console = (Returns acc', console') →
  acc' = acc
  ∨ ∃ key value,
      setProp host acc key value = Returns acc' ∧ key ∈ connectedNames host e.
Proof.
  unfold mapStateToPropsStep, andAlso, bind, lift, ret, warn. intros H.
  repeat (case_match; simplify_eq); eauto;
    right; eexists _, _;
    (split; [eassumption|]);
    first [apply toString_connectedNames|apply propName_connectedNames].
Qed.


Lemma mapStateToProps_reduce_keys ovr cfg state own entries acc console acc' console' :
  reduce (mapStateToPropsStep host ovr cfg state own) entries acc console
  = (Returns acc', console') →
  ∀ key, is_Some (properties acc' !! key) →
    is_Some (properties acc !! key)
    ∨ ∃ e, e ∈ entries ∧ key ∈ connectedNames host e.
Proof.
  revert acc console. induction entries as [|e entries IH]; intros acc console.
  - intros [= <- <-] key Hkey. by left.
  - simpl. unfold bind at 1.
    destruct (mapStateToPropsStep host ovr cfg state own acc e console)
      as [[acc1|?] console1] eqn:Estep; [|done].
    intros Hrest key Hkey.
    destruct (IH _ _ Hrest key Hkey) as [Hacc1|(e' & Hin & He')].
    + destruct (mapStateToPropsStep_writes _ _ _ _ _ _ _ _ _ Estep)
        as [->|(k & v & Hset & Hk)]; [by left|].
      destruct (setProp_properties _ _ _ _ Hset) as [Heq|Heq]; rewrite Heq in Hacc1;
        [by left|].
      destruct (decide (k = key)) as [<-|Hne].
      * right. exists e. split; [apply elem_of_cons; by left|done].
      * left. by rewrite lookup_insert_ne in Hacc1.
    + right. exists e'. split; [apply elem_of_cons; by right|done].
Qed.

(** X5.  Whatever the overrides, the state and the host's functions are, an
    object returned by the state mapping has no property beyond the ones
    requested: each of its keys is the name of an entry of [propsToConnect] or
    the prop name of a renaming directive among them. *)
Theorem state_mapping_exposes_requested_props_only
    (namespace overrides config globalState ownProps : Value)
    (entries : list Value) (console console' : list string)
    (mapped : gmap string Value) :
  createMapStateToPropsFunc host namespace overrides (VArr entries) config
    globalState ownProps console = (Returns (VObj mapped), console') →
  ∀ key, is_Some (mapped !! key) →
    ∃ e, e ∈ entries
         ∧ (toString host e = key
            ∨ ∃ source target,
                e = VAsPropRenamer source target ∧ toString host target = key).
Proof.
  unfold createMapStateToPropsFunc, bind, lift, ret, throw. intros Hrun key Hkey.
  destruct (getProp host globalState (toString host namespace)) as [state|?]; [|done].
  destruct (truthy state); simpl in Hrun; [|done].
  destruct (reduce _ entries (plain ∅) console) as [[m|?] c] eqn:Ereduce; [|done].
  injection Hrun as Hm ->. apply objectValue_plain_inv in Hm as ->.
  destruct (mapStateToProps_reduce_keys _ _ _ _ _ _ _ _ _ Ereduce key Hkey)
    as [[v Hv]|(e & Hin & He)]; [simpl in Hv; by rewrite lookup_empty in Hv|].
  exists e. split; [done|]. by apply connectedNames_elem.
Qed.

Lemma mapStateToPropsStep_not_overridden (ovr : gmap string Value)
    cfg cfg' state own own' acc e console :
  isFunction (default VUndefined (ovr !! toString host e)) = false →
  (∀ s target, e = VAsPropRenamer (VStr s) target → ovr !! s = None) →
  (isFunction (objectGet ovr (toString host e)) = true →
   hostCall host (objectGet ovr (toString host e)) (VObj ovr) [state; own; cfg] console
   = hostCall host (objectGet ovr (toString host e)) (VObj ovr) [state; own'; cfg'] console) →
  mapStateToPropsStep host (VObj ovr) cfg state own acc e console
  = mapStateToPropsStep host (VObj ovr) cfg' state own' acc e console.
Proof.
  intros Hkey Hsource Hinherited. unfold mapStateToPropsStep, bind, lift. cbn [getProp].
  destruct (isFunction (objectGet ovr (toString host e))) eqn:Hfun.
  - unfold callHost. rewrite Hfun. by rewrite Hinherited.
  - destruct (andAlso _ _ console) as [[[|]|?] c]; [done| |done].
    destruct e as [| | | | | | | |source target| | | | | | | | | |]; try done.
    destruct (stateHas host state source c) as [[[|]|?] c1]; [done| |done].
    destruct source as [| | | |s| | | | | | | | | | | | | |]; try done.
    simpl. by rewrite (Hsource s target eq_refl).
Qed.

(** X6.  The component's own props and the config reach the override
    functions and nothing else: when none of the requested entries is
    overridden (no override function under an entry, no override under the
    source of a directive), the state mapping gives the same outcome and the
    same console whatever the own props and the config are.  Where an entry
    names a method that the overrides inherit from [Object.prototype], that
    method is called in the place of an override; the host's method is
    required to give the same outcome for the two argument lists. *)
Theorem state_mapping_reads_ownProps_and_config_through_overrides_only
    (namespace globalState : Value) (overrides : gmap string Value)
    (entries : list Value) (config config' ownProps ownProps' : Value)
    (console : list string) :
  Forall (λ e,
    isFunction (default VUndefined (overrides !! toString host e)) = false
    ∧ ∀ s target, e = VAsPropRenamer (VStr s) target → overrides !! s = None)
    entries →
  (∀ e state console0,
     e ∈ entries →
     isFunction (objectGet overrides (toString host e)) = true →
     hostCall host (objectGet overrides (toString host e)) (VObj overrides)
       [state; ownProps; config] console0
     = hostCall host (objectGet overrides (toString host e)) (VObj overrides)
         [state; ownProps'; config'] console0) →
  createMapStateToPropsFunc host namespace (VObj overrides) (VArr entries) config
    globalState ownProps console
  = createMapStateToPropsFunc host namespace (VObj overrides) (VArr entries) config'
      globalState ownProps' console.
Proof.
  intros Hentries Hinherited. unfold createMapStateToPropsFunc. unfold bind at 1 3.
  destruct (lift _ console) as [[state|?] c]; [|done].
  destruct (truthy state); simpl; [|done].
  assert (∀ acc c0,
    reduce (mapStateToPropsStep host (VObj overrides) config state ownProps)
      entries acc c0
    = reduce (mapStateToPropsStep host (VObj overrides) config' state ownProps')
        entries acc c0) as Hreduce.
  { induction entries as [|e entries IH]; intros acc c0; [done|].
    apply Forall_cons in Hentries as [[Hkey Hsource] Hrest].
    simpl. unfold bind.
    rewrite (mapStateToPropsStep_not_overridden overrides config config' state
               ownProps ownProps')
      by (first [done|intros; apply Hinherited; [apply elem_of_cons; by left|done]]).
    destruct (mapStateToPropsStep host (VObj overrides) config' state ownProps' acc e c0)
      as [[acc1|?] c1]; [|done].
    apply IH; [done|].
    intros e' state' c' Hin. apply Hinherited. apply elem_of_cons. by right. }
  unfold bind. by rewrite Hreduce.
Qed.

(** X7.  The state of the namespace has to be an Immutable Map.  When it is an
    object literal without a member [has], the state mapping throws a
    TypeError at the first requested string under which the overrides yield no
    function, after the entries before it were mapped. *)
Theorem state_mapping_plain_object_slice_is_fatal
    (namespace config ownProps : Value)
    (overrides slice globalState acc : gmap string Value)
    (entries rest : list Value) (name : string) (console console' : list string) :
  globalState !! toString host namespace = Some (VObj slice) →
  isFunction (objectGet slice "has") = false →
  isFunction (objectGet overrides name) = false →
  createMapStateToPropsFunc host namespace (VObj overrides) (VArr entries) config
    (VObj globalState) ownProps console = (Returns (VObj acc), console') →
  createMapStateToPropsFunc host namespace (VObj overrides)
    (VArr (entries ++ VStr name :: rest)) config (VObj globalState) ownProps console
  = (Throws TypeError, console').
Proof.
  intros Hslice Hhas Hoverride.
  rewrite !createMapStateToPropsFunc_reduce with (slice := VObj slice) by done.
  intros Hrun.
  assert (reduce (mapStateToPropsStep host (VObj overrides) config (VObj slice) ownProps)
            entries (plain ∅) console = (Returns (plain acc), console')) as Hreduce.
  { unfold bind, ret in Hrun.
    destruct (reduce _ entries (plain ∅) console) as [[m|?] c]; [|done].
    injection Hrun as Hm ->. by apply objectValue_plain_inv in Hm as ->. }
  unfold bind at 1. rewrite reduce_app, (bind_returns _ _ _ _ _ Hreduce). simpl.
  unfold bind at 1.
  assert (mapStateToPropsStep host (VObj overrides) config (VObj slice) ownProps
            (plain acc) (VStr name) console' = (Throws TypeError, console')) as ->; [|done].
  unfold mapStateToPropsStep, andAlso, stateHas, invokeMethod, callHost, bind, lift, throw.
  simpl. by rewrite Hoverride, Hhas.
Qed.

(** ** Further properties of the connector's actions *)

(** X8.  A connector created without an action table has the empty object as
    table: every requested action that is not the name of a member that every
    object inherits is answered by one warning, in the order of the request,
    and the dispatch mapping is empty.  The default replaces an undefined
    table only: with null as table, the first requested string throws a
    TypeError. *)
Theorem connector_without_action_table (namespace overrides : Value)
    (actionsToConnect : list Value) (name : string) (console : list string) :
  (Forall (λ e,
     (∀ action, e = VStr action → inheritedByObjects action = false)
     ∧ (∀ source target, e = VAsPropRenamer source target →
          inheritedByObjects (toString host source) = false))
     actionsToConnect →
   callMethod host (createNamespaceConnector namespace VUndefined overrides)
     "curriedCreateMapDispatchToProps" [VArr actionsToConnect] console
   = (Returns (VObj ∅),
      console
      ++ ((λ e, "Warning: Attempted to map invalid action name " +:+ toString host e)
          <$> actionsToConnect)))
  ∧ callMethod host (createNamespaceConnector namespace VNull overrides)
      "curriedCreateMapDispatchToProps" [VArr (VStr name :: actionsToConnect)] console
    = (Throws TypeError, console).
Proof.
  split; [|reflexivity]. intros Hentries.
  assert (∀ acc c,
    reduce (mapDispatchToPropsStep host (VObj ∅)) actionsToConnect acc c
    = (Returns acc,
       c ++ ((λ e, "Warning: Attempted to map invalid action name " +:+ toString host e)
             <$> actionsToConnect))) as Hreduce.
  { induction actionsToConnect as [|e es IH]; intros acc c.
    - simpl. by rewrite app_nil_r.
    - apply Forall_cons in Hentries as [[Hstr Hren] Hes].
      simpl. unfold bind. rewrite mapDispatchToPropsStep_invalid, IH by
        (first [done
               |intros ? ->; rewrite objectGet_not_inherited; eauto
               |intros ?? ->; rewrite objectGet_not_inherited; eauto]).
      by rewrite <- app_assoc. }
  change (bind (reduce (mapDispatchToPropsStep host (VObj ∅)) actionsToConnect (plain ∅))
            (λ newState, ret (objectValue newState)) console = (Returns (VObj ∅),
     console
     ++ ((λ e, "Warning: Attempted to map invalid action name " +:+ toString host e)
         <$> actionsToConnect))).
  unfold bind. by rewrite Hreduce.
Qed.

(** X9.  A falsy [actionsToConnect] (undefined, null, false, 0, the empty
    string) is treated as no request: the connector hands [connect] the empty
    object and writes nothing.  A single action name passed as a string
    instead of an array makes the connector throw a TypeError. *)
Theorem connector_actions_must_be_an_array
    (namespace actions overrides propsToConnect actionsToConnect config : Value)
    (name : string) (console : list string) :
  (truthy actionsToConnect = false →
   ∃ cc, connector host namespace actions overrides propsToConnect actionsToConnect
           config console = (Returns cc, console)
         ∧ mapDispatchToProps cc = VObj ∅)
  ∧ (name ≠ "" →
     connector host namespace actions overrides propsToConnect (VStr name) config console
     = (Throws TypeError, console)).
Proof.
  split.
  - intros Hfalsy. unfold connector, orElse. rewrite Hfalsy. eexists. by split.
  - intros Hname. unfold connector, orElse. simpl.
    destruct (String.eqb name "") eqn:E; [by apply String.eqb_eq in E|]. done.
Qed.

(** ** Further properties of propAs *)

(** X10.  [propAs] applied to two strings writes nothing, and the directive it
    returns connects the state key [source] under the prop name [target], and
    the action [source] under the prop name [target], for any prop name but
    [__proto__]. *)
Theorem propAs_directive_connects_under_target
    (namespace config ownProps : Value)
    (overrides state globalState actions : gmap string Value)
    (source target : string) (v f : Value) (console : list string) :
  globalState !! toString host namespace = Some (VMap state) →
  state !! source = Some v →
  isFunction
    (objectGet overrides (toString host (VAsPropRenamer (VStr source) (VStr target))))
  = false →
  actions !! source = Some f →
  truthy f = true →
  target ≠ "__proto__" →
  bind (propAs host (VStr source) (VStr target))
    (λ directive,
       createMapStateToPropsFunc host namespace (VObj overrides) (VArr [directive])
         config (VObj globalState) ownProps) console
  = (Returns (VObj {[target := v]}), console)
  ∧ bind (propAs host (VStr source) (VStr target))
      (λ directive,
         createMapDispatchToPropsObj host (VObj actions) (VArr [directive])) console
    = (Returns (VObj {[target := f]}), console).
Proof.
  intros Hslice Hstate Hoverride Haction Htruthy Htarget. split.
  - unfold propAs. simpl. unfold bind at 1. unfold bind at 1. simpl.
    rewrite createMapStateToPropsFunc_reduce with (slice := VMap state) by done.
    simpl. unfold bind at 1. unfold bind at 1.
    rewrite (mapStateToPropsStep_renamed_state overrides state config ownProps
               (plain ∅) source (VStr target) v console Hoverride Hstate).
    unfold lift, ret. simpl. by rewrite setProp_plain.
  - unfold propAs. simpl. unfold bind at 1. unfold bind at 1. simpl.
    unfold createMapDispatchToPropsObj. simpl. unfold bind at 1. unfold bind at 1.
    rewrite mapDispatchToPropsStep_renamed
      by (simpl; by rewrite (objectGet_own _ _ _ Haction)).
    unfold lift, ret. simpl. rewrite setProp_plain by done.
    by rewrite (objectGet_own _ _ _ Haction).
Qed.

(** ** Further properties of combineConnectors *)

Lemma getProp_throws obj key e : getProp host obj key = Throws e → e = TypeError.
Proof.
  destruct obj; simpl; try discriminate;
    repeat (case_match; try discriminate); by intros [= <-].
Qed.

Lemma callFunction_not_function f this args console :
  isFunction f = false → callFunction host f this args console = (Throws TypeError, console).
Proof.
  intros H. destruct f; try discriminate H; simpl; unfold callHost; by rewrite ?H.
Qed.

Lemma pushFunc_nothing_requested b c p a cfg console :
  truthy p = false → truthy a = false →
  pushFunc host b c p a cfg console = (Returns b, console).
Proof. intros Hp Ha. unfold pushFunc, bind, ret. by rewrite Hp, Ha. Qed.

(** X11.  [push] consults the connector only for what is requested.  With
    falsy props and falsy actions it returns the builder as it is, whatever
    stands in the connector's place.  With truthy props and a value whose
    member [curriedCreateMapStateToProps] is not a function (or a value that
    has no members, as undefined), it throws a TypeError. *)
Theorem pushFunc_needs_a_connector_when_something_is_requested (b : Builder)
    (connector propsToConnect actionsToConnect config : Value)
    (console : list string) :
  (truthy propsToConnect = false → truthy actionsToConnect = false →
   pushFunc host b connector propsToConnect actionsToConnect config console
   = (Returns b, console))
  ∧ (truthy propsToConnect = true →
     (∀ f, getProp host connector "curriedCreateMapStateToProps" = Returns f →
           isFunction f = false) →
     pushFunc host b connector propsToConnect actionsToConnect config console
     = (Throws TypeError, console)).
Proof.
  split; [apply pushFunc_nothing_requested|].
  intros Hp Hmember. unfold pushFunc, callMethod. rewrite Hp.
  unfold bind at 1. unfold bind at 1. unfold bind at 1. unfold lift.
  destruct (getProp host connector "curriedCreateMapStateToProps") as [f|e] eqn:Eget.
  - by rewrite callFunction_not_function by eauto.
  - by rewrite (getProp_throws _ _ _ Eget).
Qed.

(** X12.  An argument of [combineConnectors] that names neither props nor
    actions adds nothing and is not even looked at.  In particular a
    two-dimensional array passed after the first argument is ignored in
    silence: the check for it covers the first argument only. *)
Theorem combineConnectors_ignores_entry_without_request
    (connectorsAndParams items inner : list Value) (console : list string) :
  connectorsAndParams ≠ [] →
  (truthy (arg items 1) = false → truthy (arg items 2) = false →
   combineConnectors host (connectorsAndParams ++ [VArr items]) console
   = combineConnectors host connectorsAndParams console)
  ∧ combineConnectors host (connectorsAndParams ++ [VArr [VArr inner]]) console
    = combineConnectors host connectorsAndParams console.
Proof.
  intros Hne.
  assert (∀ items, truthy (arg items 1) = false → truthy (arg items 2) = false →
    combineConnectors host (connectorsAndParams ++ [VArr items]) console
    = combineConnectors host connectorsAndParams console) as Hignored.
  { intros items' H1 H2. rewrite combineConnectors_snoc by done. unfold bind at 1.
    destruct (combineConnectors host connectorsAndParams console) as [[b|e] c]; [|done].
    unfold bind, lift. simpl. by apply pushFunc_nothing_requested. }
  split; [apply Hignored|]. by apply Hignored.
Qed.

(** X13.  A second [connect] keeps the mappers of the first one and adds its
    own after them, and replaces [mergeProps] and [options]: what the first
    call gave for these two is lost, and a component connected afterwards gets
    the ones of the second call. *)
Theorem connectFunc_twice_overwrites_mergeProps_and_options (b : Builder)
    (state1 dispatch1 merge1 options1 state2 dispatch2 merge2 options2 : Value) :
  let b2 :=
    connectFunc (connectFunc b state1 dispatch1 merge1 options1)
      state2 dispatch2 merge2 options2 in
  stateMappers b2
  = stateMappers b ++ (if truthy state1 then [state1] else [])
    ++ (if truthy state2 then [state2] else [])
  ∧ mappedDispatches b2
    = mappedDispatches b ++ (if truthy dispatch1 then [dispatch1] else [])
      ++ (if truthy dispatch2 then [dispatch2] else [])
  ∧ ∀ TargetComponent console bound b' console',
      combinedConnectors host b2 TargetComponent console
      = (Returns (bound, b'), console') →
      mergePropsArg (call bound) = merge2 ∧ optionsArg (call bound) = options2.
Proof.
  intros b2. subst b2.
  destruct (connectFunc_appends (connectFunc b state1 dispatch1 merge1 options1)
              state2 dispatch2 merge2 options2) as (Hs2 & Hd2 & Hm2 & Ho2).
  destruct (connectFunc_appends b state1 dispatch1 merge1 options1)
    as (Hs1 & Hd1 & _).
  split; [by rewrite Hs2, Hs1, app_assoc|]. split; [by rewrite Hd2, Hd1, app_assoc|].
  intros T console bound b' console'. unfold combinedConnectors, bind, lift, ret.
  destruct (objectAssign host _) as [d|?]; [|done].
  by intros [= <- _ _].
Qed.

Lemma assign_lookup_cases key sources :
  (∀ source, source ∈ sources → ownEnumerable host source !! key = None)
  ∨ ∃ value, ∀ target, foldl (assignSource host) target sources !! key = Some value.
Proof.
  induction sources as [|s sources IH]; [left; by intros ? ?%elem_of_nil|].
  destruct IH as [Hnone|[value Hvalue]].
  - destruct (ownEnumerable host s !! key) as [value|] eqn:E.
    + right. exists value. intros target. simpl.
      rewrite assign_lookup_none by done. unfold assignSource.
      by apply lookup_union_Some_l.
    + left. intros source [->|Hin]%elem_of_cons; [done|by apply Hnone].
  - right. exists value. intros target. simpl. apply Hvalue.
Qed.

Lemma assign_idempotent target sources :
  foldl (assignSource host) (foldl (assignSource host) target sources) sources
  = foldl (assignSource host) target sources.
Proof.
  apply map_eq. intros key.
  destruct (assign_lookup_cases key sources) as [Hnone|[value Hvalue]].
  - by rewrite !assign_lookup_none.
  - by rewrite !Hvalue.
Qed.

(** X14.  Connecting a second component with the same builder gives the same
    four arguments to [connect] as the first time, and leaves the builder as
    the first application left it: the properties that [Object.assign] wrote
    into the first dispatch object do not change what is merged later. *)
Theorem connecting_twice_gives_the_same_binding (b b' : Builder) (bound : Bound)
    (TargetComponent TargetComponent' : Value) (console console' console2 : list string) :
  Built host b →
  combinedConnectors host b TargetComponent console = (Returns (bound, b'), console') →
  ∃ bound',
    combinedConnectors host b' TargetComponent' console2 = (Returns (bound', b'), console2)
    ∧ call bound' = call bound
    ∧ component bound' = TargetComponent'.
Proof.
  intros Hbuilt Hfirst.
  destruct (Built_seed b Hbuilt) as (seed & ds & Hb & _).
  unfold combinedConnectors, bind, lift, ret in Hfirst |- *.
  rewrite Hb in Hfirst. simpl in Hfirst. injection Hfirst as <- <- <-. simpl.
  rewrite assign_idempotent. eexists. by split.
Qed.

Lemma forEach_app {A} (f : Value → M A) items more console :
  forEach f (items ++ more) console
  = bind (forEach f items)
      (λ done, bind (forEach f more) (λ rest, ret (done ++ rest))) console.
Proof.
  revert console. induction items as [|item items IH]; intros console.
  - simpl. unfold bind, ret. by destruct (forEach f more console) as [[?|?] ?].
  - simpl. unfold bind at 1. unfold bind at 2. unfold bind at 2.
    destruct (f item console) as [[a|?] c]; [|done].
    unfold bind at 1. rewrite IH. unfold bind, ret.
    destruct (forEach f items c) as [[?|?] c1]; [|done].
    by destruct (forEach f more c1) as [[?|?] ?].
Qed.

(** X15.  The combined state mapper runs the accumulated state mappers in
    order and stops at the first one that throws: its error is the error of
    the whole mapping, the console is as that mapper left it, and the mappers
    after it are not run.  So one connector whose namespace is missing from the
    store makes the combined mapping fail. *)
Theorem combined_state_mapping_stops_at_first_throw
    (before after : list Value) (stateMapper state ownProps : Value)
    (outputs : list Value) (e : Exn) (console console1 console2 : list string) :
  forEach (λ stateMapper, callFunction host stateMapper VUndefined [state; ownProps])
    before console = (Returns outputs, console1) →
  callFunction host stateMapper VUndefined [state; ownProps] console1
  = (Throws e, console2) →
  runMapStateToProps host (VCombinedMapStateToProps (before ++ stateMapper :: after))
    state ownProps console
  = (Throws e, console2).
Proof.
  intros Hbefore Hthrow. simpl. unfold combinedMapStateToPropsFuncs.
  unfold bind at 1. rewrite forEach_app, (bind_returns _ _ _ _ _ Hbefore).
  simpl. unfold bind at 1. unfold bind at 1. by rewrite Hthrow.
Qed.





Lemma ownEnumerable_objectValue obj : ownEnumerable host (objectValue obj) = properties obj.
Proof. unfold objectValue. by destruct (prototype obj). Qed.


(** X17.  The config is defaulted to the empty object by the connector's own
    call only.  When the config is left out, an override function of a
    connector that was called directly receives the empty object as config,
    while the same override receives undefined when the connector was pushed
    to [combineConnectors].  In both cases what the override returns is
    assigned under the prop to an empty object, which for any prop name but
    [__proto__] gives the object with that one property. *)
Theorem pushed_connector_does_not_default_config
    (namespace actions ownProps : Value)
    (overrides state globalState : gmap string Value)
    (name : string) (f : Value) (console console0 : list string) :
  overrides !! name = Some f →
  isFunction f = true →
  globalState !! toString host namespace = Some (VMap state) →
  ∃ cc b,
    connector host namespace actions (VObj overrides) (VArr [VStr name]) VUndefined
      VUndefined console = (Returns cc, console)
    ∧ runMapStateToProps host (mapStateToProps cc) (VObj globalState) ownProps console0
      = bind (hostCall host f (VObj overrides) [VMap state; ownProps; VObj ∅])
          (λ value, let* props := lift (setProp host (plain ∅) name value) in
                    ret (objectValue props)) console0
    ∧ combineConnectors host
        [VArr [VConnector namespace actions (VObj overrides); VArr [VStr name]]] console
      = (Returns b, console)
    ∧ stateMappers b
      = [VMapStateToProps namespace (VObj overrides) (VArr [VStr name]) VUndefined]
    ∧ runMapStateToProps host (VCombinedMapStateToProps (stateMappers b))
        (VObj globalState) ownProps console0
      = bind (hostCall host f (VObj overrides) [VMap state; ownProps; VUndefined])
          (λ value, let* props := lift (setProp host (plain ∅) name value) in
                    ret (VObj (properties props))) console0
    ∧ (name ≠ "__proto__" →
       runMapStateToProps host (mapStateToProps cc) (VObj globalState) ownProps console0
       = bind (hostCall host f (VObj overrides) [VMap state; ownProps; VObj ∅])
           (λ value, ret (VObj {[name := value]})) console0
       ∧ runMapStateToProps host (VCombinedMapStateToProps (stateMappers b))
           (VObj globalState) ownProps console0
         = bind (hostCall host f (VObj overrides) [VMap state; ownProps; VUndefined])
             (λ value, ret (VObj {[name := value]})) console0).
Proof.
  intros Hf Hfun Hslice.
  assert (∀ cfg,
    createMapStateToPropsFunc host namespace (VObj overrides) (VArr [VStr name]) cfg
      (VObj globalState) ownProps console0
    = bind (hostCall host f (VObj overrides) [VMap state; ownProps; cfg])
        (λ value, let* props := lift (setProp host (plain ∅) name value) in
                  ret (objectValue props)) console0) as Hmap.
  { intros cfg.
    rewrite createMapStateToPropsFunc_reduce with (slice := VMap state) by done.
    simpl. unfold bind at 1. unfold bind at 1.
    rewrite mapStateToPropsStep_override
      by (simpl; by rewrite (objectGet_own _ _ _ Hf)).
    simpl. rewrite (objectGet_own _ _ _ Hf). unfold bind, lift, ret.
    destruct (hostCall host f _ _ console0) as [[value|?] c]; [|done].
    by destruct (setProp host (plain ∅) name value). }
  assert (∀ cfg,
    runMapStateToProps host
      (VCombinedMapStateToProps
         [VMapStateToProps namespace (VObj overrides) (VArr [VStr name]) cfg])
      (VObj globalState) ownProps console0
    = bind (hostCall host f (VObj overrides) [VMap state; ownProps; cfg])
        (λ value, let* props := lift (setProp host (plain ∅) name value) in
                  ret (VObj (properties props))) console0) as Hcombined.
  { intros cfg. simpl. unfold combinedMapStateToPropsFuncs. simpl. unfold arg. simpl.
    unfold bind at 1. unfold bind at 1. rewrite Hmap. unfold bind, lift, ret.
    destruct (hostCall host f _ _ console0) as [[value|?] c]; [|done].
    destruct (setProp host (plain ∅) name value) as [props|?]; [|done].
    simpl. unfold assignSource. rewrite (right_id_L ∅ (∪)).
    by rewrite ownEnumerable_objectValue. }
  exists {| mapStateToProps :=
              VMapStateToProps namespace (VObj overrides) (VArr [VStr name]) (VObj ∅);
            mapDispatchToProps := VObj ∅;
            mergePropsArg := VUndefined; optionsArg := VUndefined |},
         {| stateMappers :=
              [VMapStateToProps namespace (VObj overrides) (VArr [VStr name]) VUndefined];
            mappedDispatches := [VObj ∅];
            mergeProps := VUndefined; options := VUndefined |}.
  cbn [mapStateToProps stateMappers].
  split; [reflexivity|]. split; [|split; [reflexivity|split; [reflexivity|split]]].
  - simpl. unfold arg. simpl. apply Hmap.
  - apply Hcombined.
  - intros Hname. split.
    + simpl. unfold arg. simpl. rewrite Hmap. unfold bind, lift, ret.
      destruct (hostCall host f _ _ console0) as [[value|?] c]; [|done].
      by rewrite setProp_plain.
    + rewrite Hcombined. unfold bind, lift, ret.
      destruct (hostCall host f _ _ console0) as [[value|?] c]; [|done].
      by rewrite setProp_plain.
Qed.

(** ** Names that every object inherits, and the name [__proto__] *)

Lemma objectPrototypeMethods_inherited name :
  name ∈ objectPrototypeMethods →
  inheritedByObjects name = true ∧ name ≠ "__proto__".
Proof.
  intros Hin. unfold objectPrototypeMethods in Hin.
  repeat (apply elem_of_cons in Hin as [->|Hin]; [by split|]).
  by apply elem_of_nil in Hin.
Qed.

(** X18.  The name of a method that every object inherits ([toString],
    [constructor], [valueOf], ...) counts as present in any object literal.
    With a table that has no entry under such a name: the reducer calls the
    inherited method for an action of that type, and the dispatch mapping
    connects the inherited method under that name without a warning.  With a
    store that has no slice under such a name, the state mapping of a connector
    over that namespace finds the inherited method as slice and does not throw
    the missing-namespace error. *)
Theorem inherited_method_names_count_as_present
    (name : string) (table : gmap string Value)
    (namespace initialState state overrides propsToConnect config ownProps : Value)
    (console : list string) :
  table !! name = None →
  name ∈ objectPrototypeMethods →
  let method := objectPrototypeMember VObjectPrototype name in
  isFunction method = true
  ∧ callFunction host (createNamespacedReducer namespace initialState (VObj table))
      VUndefined [state; VObj {["type" := VStr name]}] console
    = hostCall host method (VObj table)
        [match state with VUndefined => initialState | _ => state end;
         VObj {["type" := VStr name]}] console
  ∧ createMapDispatchToPropsObj host (VObj table) (VArr [VStr name]) console
    = (Returns (VObj {[name := method]}), console)
  ∧ (isArray propsToConnect = false →
     createMapStateToPropsFunc host (VStr name) overrides propsToConnect config
       (VObj table) ownProps console
     = (Returns (VObj ∅), console)).
Proof.
  intros Hown Hname method.
  destruct (objectPrototypeMethods_inherited name Hname) as [Hinherited Hproto].
  destruct (objectGet_inherited table name Hown Hinherited) as (Htruthy & Hfun & _).
  specialize (Hfun Hproto).
  assert (objectGet table name = method) as Hget
    by (unfold objectGet; by rewrite Hown).
  rewrite Hget in Htruthy, Hfun.
  split; [done|]. split; [|split].
  - assert (objectGet {["type" := VStr name]} "type" = VStr name) as Htype
      by (unfold objectGet; by rewrite lookup_singleton_eq).
    cbn [callFunction createNamespacedReducer arg lookup list_lookup default].
    unfold id, reducer, bind, lift. cbn [getProp].
    rewrite Htype. cbn [toString withDefault].
    rewrite Hget, Htruthy. by rewrite callHost_function.
  - unfold createMapDispatchToPropsObj. simpl. unfold bind at 1. unfold bind at 1.
    rewrite mapDispatchToPropsStep_direct by (by rewrite Hget).
    unfold lift, ret. rewrite setProp_plain by done. by rewrite Hget.
  - intros Hprops. eapply createMapStateToPropsFunc_not_array; [|exact Htruthy|done].
    simpl. by rewrite Hget.
Qed.

(** X19.  Nothing is connected under the name [__proto__]: an assignment
    under that name reaches the accessor of [Object.prototype] and creates no
    property.  The dispatch mapping answers the request [__proto__] with
    neither a property nor a warning; a state value that is not an object,
    requested under the prop name [__proto__], is dropped in silence; and a
    reducer whose namespace is [__proto__] becomes the prototype of the object
    handed to [combineReducers], which has no entry for it. *)
Theorem nothing_is_connected_under_proto
    (table overrides state globalState : gmap string Value)
    (namespace config ownProps initialState reducerFunctions : Value)
    (source : string) (v : Value) (console : list string) :
  table !! "__proto__" = None →
  globalState !! toString host namespace = Some (VMap state) →
  state !! source = Some v →
  isFunction
    (objectGet overrides
       (toString host (VAsPropRenamer (VStr source) (VStr "__proto__")))) = false →
  typeof v ≠ "object" → typeof v ≠ "function" →
  createMapDispatchToPropsObj host (VObj table) (VArr [VStr "__proto__"]) console
  = (Returns (VObj ∅), console)
  ∧ createMapStateToPropsFunc host namespace (VObj overrides)
      (VArr [VAsPropRenamer (VStr source) (VStr "__proto__")]) config
      (VObj globalState) ownProps console
    = (Returns (VObj ∅), console)
  ∧ combineNamespacedReducers host
      [createNamespacedReducer (VStr "__proto__") initialState reducerFunctions] console
    = (Returns
         (VObjWithProto
            (createNamespacedReducer (VStr "__proto__") initialState reducerFunctions) ∅),
       console).
Proof.
  intros Htable Hslice Hstate Hoverride Hobject Hfunction.
  split; [|split; [|reflexivity]].
  - unfold createMapDispatchToPropsObj. simpl. unfold bind at 1. unfold bind at 1.
    rewrite mapDispatchToPropsStep_direct
      by (unfold objectGet; by rewrite Htable).
    unfold objectGet. by rewrite Htable.
  - rewrite createMapStateToPropsFunc_reduce with (slice := VMap state) by done.
    simpl. unfold bind at 1. unfold bind at 1.
    rewrite (mapStateToPropsStep_renamed_state overrides state config ownProps
               (plain ∅) source (VStr "__proto__") v console Hoverride Hstate).
    unfold lift, ret, setProp, newPrototype, isFunction. simpl.
    apply String.eqb_neq in Hobject as ->. by apply String.eqb_neq in Hfunction as ->.
Qed.

End Properties.

(** ** The behaviours the specification lists, on concrete inputs *)

Example connect_present_prop :
  createMapStateToPropsFunc exampleHost (VStr "models/puppy") (VObj ∅)
    (VArr [VStr "count"]) (VObj ∅) (VObj puppyStore) (VObj ∅) []
  = (Returns (VObj {["count" := VNum 5]}), []).
Proof. vm_compute. reflexivity. Qed.

Example connect_absent_prop :
  createMapStateToPropsFunc exampleHost (VStr "models/puppy") (VObj ∅)
    (VArr [VStr "missing"]) (VObj ∅) (VObj puppyStore) (VObj ∅) []
  = (Returns (VObj ∅),
     ["Warning: Attempted to map invalid state key name missing"]).
Proof. vm_compute. reflexivity. Qed.

Example connect_renamed_prop :
  createMapStateToPropsFunc exampleHost (VStr "models/puppy") (VObj ∅)
    (VArr [VAsPropRenamer (VStr "count") (VStr "total")]) (VObj ∅)
    (VObj puppyStore) (VObj ∅) []
  = (Returns (VObj {["total" := VNum 5]}), []).
Proof. vm_compute. reflexivity. Qed.

Example connect_override_wins :
  createMapStateToPropsFunc exampleHost (VStr "models/puppy")
    (VObj {["count" := VFun 7]}) (VArr [VStr "count"]) (VObj ∅)
    (VObj puppyStore) (VObj ∅) []
  = (Returns (VObj {["count" := VNum 7]}), []).
Proof. vm_compute. reflexivity. Qed.

Example connect_renamed_override :
  createMapStateToPropsFunc exampleHost (VStr "models/puppy") (VObj puppyOverrides)
    (VArr [VAsPropRenamer (VStr "doubled") (VStr "twice")]) (VObj ∅)
    (VObj puppyStore) (VObj ∅) []
  = (Returns (VObj {["twice" := VNum 7]}), []).
Proof. vm_compute. reflexivity. Qed.

Example connect_without_namespace :
  createMapStateToPropsFunc exampleHost (VStr "models/kitten") (VObj ∅)
    (VArr [VStr "count"]) (VObj ∅) (VObj puppyStore) (VObj ∅) []
  = (Throws (Error ("Unable to find state namespace 'models/kitten'; Perhaps you "
                    +:+ "forgot to add the namespaced reducer to your call to "
                    +:+ "'combineNamespacedReducers'?")), []).
Proof. vm_compute. reflexivity. Qed.

Example connect_actions :
  createMapDispatchToPropsObj exampleHost (VObj puppyActions)
    (VArr [VStr "requestPuppy"; VAsPropRenamer (VStr "deletePuppy") (VStr "remove");
           VStr "adoptPuppy"]) []
  = (Returns (VObj (<["remove" := VFun 2]> {["requestPuppy" := VFun 1]})),
     ["Warning: Attempted to map invalid action name adoptPuppy"]).
Proof. vm_compute. reflexivity. Qed.

Example connect_without_actions :
  ∃ cc,
    connector exampleHost (VStr "models/puppy") (VObj puppyActions) (VObj puppyOverrides)
      (VArr [VStr "count"]) VUndefined VUndefined [] = (Returns cc, [])
    ∧ mapDispatchToProps cc = VObj ∅
    ∧ callMethod exampleHost connectPuppyModel "curriedCreateMapDispatchToProps" [] []
      = (Returns (VObj ∅), [])
    ∧ runMapStateToProps exampleHost (mapStateToProps cc) (VObj puppyStore) (VObj ∅) []
      = (Returns (VObj {["count" := VNum 5]}), []).
Proof.
  eexists. split; [vm_compute; reflexivity|]. split; [reflexivity|].
  split; vm_compute; reflexivity.
Qed.

Example nested_array_argument :
  combineConnectors exampleHost [VArr [entryA; entryB]] []
  = (Throws (Error ("Invalid first argument in call to `combineConnectors`; "
                    +:+ "Use multiple arguments instead of two-dimensional Array")), []).
Proof. vm_compute. reflexivity. Qed.

Example config_prerequisite_missing :
  checkConfigPrerequisiteSatisfied exampleHost (VStr "connectPuppyModel")
    (VStr "puppyRecords") (VStr "max") (VObj ∅) []
  = (Throws (Error ("In `puppyRecords` override in `connectProductListProductsModel`."
                    +:+ "  Config property `max` is required but not specified")), []).
Proof. vm_compute. reflexivity. Qed.

Example reducer_unmatched_type :
  callFunction exampleHost puppyReducer VUndefined
    [VMap puppyState; VObj {["type" := VStr "models/kitten/MEOW"]}] []
  = (Returns (VMap puppyState), []).
Proof. vm_compute. reflexivity. Qed.

Example reducer_matched_type :
  callFunction exampleHost puppyReducer VUndefined
    [VUndefined; VObj {["type" := VStr "models/puppy/PUPPY_QUERY_SUCCESS"]}] []
  = (Returns (VNum 3), []).
Proof. vm_compute. reflexivity. Qed.

Example combine_two_connectors :
  ∃ b bound,
    combineConnectors exampleHost [entryA; entryB] [] = (Returns b, [])
    ∧ combinedConnectors exampleHost b (VFun 0) [] = (Returns bound, [])
    ∧ mapDispatchToProps (call bound.1)
      = VObj (<["load" := VFun 1]> (<["save" := VFun 3]> {["z" := VFun 4]}))
    ∧ runMapStateToProps exampleHost (mapStateToProps (call bound.1))
        (VObj storeAB) (VObj ∅) []
      = (Returns (VObj (<["x" := VNum 1]> (<["y" := VNum 2]> {["z" := VNum 20]}))), []).
Proof.
  do 2 eexists. split; [vm_compute; reflexivity|].
  split; [vm_compute; reflexivity|]. split; vm_compute; reflexivity.
Qed.

Example push_is_construction :
  ∃ b b1 b2,
    combineConnectors exampleHost [entryA; entryB] [] = (Returns b, [])
    ∧ combineConnectors exampleHost [] [] = (Returns b1, [])
    ∧ bind (pushFunc exampleHost b1 connectA (VArr [VStr "x"; VStr "z"])
              (VArr [VStr "load"; VStr "z"]) VUndefined)
        (λ b, pushFunc exampleHost b connectB (VArr [VStr "y"; VStr "z"])
                (VArr [VStr "save"; VStr "z"]) VUndefined) []
      = (Returns b2, [])
    ∧ b = b2.
Proof.
  do 3 eexists. split; [vm_compute; reflexivity|].
  split; [vm_compute; reflexivity|]. split; vm_compute; reflexivity.
Qed.

(** ** Requests under inherited names and under [__proto__], on concrete inputs *)

Example connect_inherited_override :
  createMapStateToPropsFunc exampleHost (VStr "models/puppy") (VObj ∅)
    (VArr [VStr "constructor"]) (VObj ∅) (VObj puppyStore) (VObj ∅) []
  = (Returns (VObj {["constructor" := VMap puppyState]}), []).
Proof. vm_compute. reflexivity. Qed.

Example connect_inherited_action :
  createMapDispatchToPropsObj exampleHost (VObj puppyActions) (VArr [VStr "toString"]) []
  = (Returns (VObj {["toString" := VBuiltin "Object.prototype.toString"]}), []).
Proof. vm_compute. reflexivity. Qed.

Example reducer_type_proto :
  callFunction exampleHost puppyReducer VUndefined
    [VMap puppyState; VObj {["type" := VStr "__proto__"]}] []
  = (Throws TypeError, []).
Proof. vm_compute. reflexivity. Qed.

Example connect_action_under_proto :
  createMapDispatchToPropsObj exampleHost (VObj puppyActions)
    (VArr [VAsPropRenamer (VStr "requestPuppy") (VStr "__proto__"); VStr "name"]) []
  = (Returns (VObjWithProto (VFun 1) ∅),
     ["Warning: Attempted to map invalid action name name"])
  ∧ createMapDispatchToPropsObj exampleHost
      (VObj (<["name" := VFun 5]> puppyActions))
      (VArr [VAsPropRenamer (VStr "requestPuppy") (VStr "__proto__"); VStr "name"]) []
    = (Throws TypeError, []).
Proof. split; vm_compute; reflexivity. Qed.

Example combine_action_under_proto :
  ∃ b bound,
    combineConnectors exampleHost
      [VArr [connectA; VUndefined; VArr [VAsPropRenamer (VStr "z") (VStr "__proto__")]];
       entryB] []
    = (Returns b, [])
    ∧ mappedDispatches b
      = [VObj ∅; VObjWithProto (VFun 2) ∅; VObj (<["save" := VFun 3]> {["z" := VFun 4]})]
    ∧ combinedConnectors exampleHost b (VFun 0) [] = (Returns bound, [])
    ∧ mapDispatchToProps (call bound.1)
      = VObj (<["save" := VFun 3]> {["z" := VFun 4]}).
Proof.
  do 2 eexists. split; [vm_compute; reflexivity|].
  split; [vm_compute; reflexivity|]. split; vm_compute; reflexivity.
Qed.

(** ** Inputs at which a statement of the specification fails *)

(** C1.  The state container has the key [count], and the directive
    [propAs('count', '__proto__')] is requested: nothing is stored under the
    directive's prop name, the object stays empty, and no warning is
    written. *)
Lemma state_mapping_precedence_counterexample :
  puppyState !! "count" = Some (VNum 5)
  ∧ createMapStateToPropsFunc exampleHost (VStr "models/puppy") (VObj ∅)
      (VArr [VAsPropRenamer (VStr "count") (VStr "__proto__")]) (VObj ∅)
      (VObj puppyStore) (VObj ∅) []
    = (Returns (VObj ∅), []).
Proof. split; vm_compute; reflexivity. Qed.

(** C2.  The table of [puppyReducer] has no entry under [toString], and for
    an action of that type the reducer does not return the state: it returns
    what [Object.prototype.toString] returns. *)
Lemma namespaced_reducer_dispatches_on_type_counterexample :
  puppyReducerFunctions !! "toString" = None
  ∧ callFunction exampleHost puppyReducer VUndefined
      [VMap puppyState; VObj {["type" := VStr "toString"]}] []
    = (Returns (VStr "[object Object]"), [])
  ∧ VStr "[object Object]" ≠ VMap puppyState.
Proof. split; [|split]; [vm_compute; reflexivity..|discriminate]. Qed.

(** C3.  The store has no slice under [constructor], and the state mapping of
    a connector over that namespace does not throw: the slice it finds is the
    function [Object]. *)
Lemma state_mapping_missing_namespace_counterexample :
  puppyStore !! "constructor" = None
  ∧ createMapStateToPropsFunc exampleHost (VStr "constructor") (VObj ∅)
      (VArr []) (VObj ∅) (VObj puppyStore) (VObj ∅) []
    = (Returns (VObj ∅), []).
Proof. split; vm_compute; reflexivity. Qed.

(** C7.  Two reducers carry the namespace [__proto__]: the object handed to
    [combineReducers] has no entry at all, neither for the first nor for the
    last of them. *)
Lemma combineNamespacedReducers_last_wins_counterexample :
  combineNamespacedReducers exampleHost [protoReducer; otherProtoReducer] []
  = (Returns (VObjWithProto otherProtoReducer ∅), [])
  ∧ ownEnumerable exampleHost (VObjWithProto otherProtoReducer ∅) = ∅.
Proof. split; vm_compute; reflexivity. Qed.

(** C8.  The entry [__proto__] is requested: the action table yields
    [Object.prototype] under it, nothing is stored under that name, and no
    warning is written.  The entry [toString] is requested, which the table
    does not have: the method that every object inherits is connected, and no
    warning is written. *)
Lemma dispatch_mapping_selects_actions_counterexample :
  createMapDispatchToPropsObj exampleHost (VObj puppyActions)
    (VArr [VStr "__proto__"]) []
  = (Returns (VObj ∅), [])
  ∧ puppyActions !! "toString" = None
  ∧ createMapDispatchToPropsObj exampleHost (VObj puppyActions)
      (VArr [VStr "toString"]) []
    = (Returns (VObj {["toString" := VBuiltin "Object.prototype.toString"]}), []).
Proof. split; [|split]; vm_compute; reflexivity. Qed.

(** ** The theorems at concrete inputs *)

(** After [count], already connected: an overridden prop, a renamed key of the
    state, a renamed override, a prop that the state and the overrides both
    have, and a name that nothing provides. *)
Lemma state_mapping_precedence_witness :
  let mapState overrides items :=
    createMapStateToPropsFunc exampleHost (VStr "models/puppy") (VObj overrides)
      (VArr items) (VObj ∅) (VObj puppyStore) (VObj ∅) [] in
  mapState puppyOverrides [VStr "count"; VStr "doubled"]
  = (Returns (VObj (<["doubled" := VNum 7]> puppyState)), [])
  ∧ mapState puppyOverrides [VStr "count"; VAsPropRenamer (VStr "count") (VStr "total")]
    = (Returns (VObj (<["total" := VNum 5]> puppyState)), [])
  ∧ mapState puppyOverrides [VStr "count"; VAsPropRenamer (VStr "doubled") (VStr "twice")]
    = (Returns (VObj (<["twice" := VNum 7]> puppyState)), [])
  ∧ mapState puppyOverrides [VStr "count"; VStr "missing"]
    = (Returns (VObj puppyState),
       ["Warning: Attempted to map invalid state key name missing"])
  ∧ mapState {["count" := VFun 9]} ([] ++ [VStr "count"])
    = (Returns (VObj {["count" := VNum 9]}), []).
Proof.
  assert (createMapStateToPropsFunc exampleHost (VStr "models/puppy")
            (VObj puppyOverrides) (VArr [VStr "count"]) (VObj ∅) (VObj puppyStore)
            (VObj ∅) [] = (Returns (VObj puppyState), [])) as Hrun
    by (vm_compute; reflexivity).
  pose proof (λ entry,
    state_mapping_precedence exampleHost (VStr "models/puppy") (VObj ∅) (VObj ∅)
      puppyOverrides puppyState puppyStore puppyState [VStr "count"] entry [] []
      eq_refl Hrun) as H.
  cbv zeta. split; [|split; [|split; [|split]]].
  - destruct (H (VStr "doubled")) as (_ & Hoverride & _).
    exact (Hoverride eq_refl ltac:(discriminate)).
  - destruct (H (VAsPropRenamer (VStr "count") (VStr "total"))) as (_ & _ & _ & Hstate & _).
    exact (Hstate "count" (VStr "total") (VNum 5) eq_refl eq_refl eq_refl
             ltac:(discriminate)).
  - destruct (H (VAsPropRenamer (VStr "doubled") (VStr "twice")))
      as (_ & _ & _ & _ & Hoverride & _).
    exact (Hoverride "doubled" (VStr "twice") (VFun 7) eq_refl eq_refl eq_refl eq_refl
             eq_refl ltac:(discriminate)).
  - destruct (H (VStr "missing")) as (_ & _ & _ & _ & _ & Hinvalid).
    apply Hinvalid; [reflexivity| |].
    + intros name [= <-]. reflexivity.
    + intros source target [=].
  - destruct (state_mapping_precedence exampleHost (VStr "models/puppy") (VObj ∅) (VObj ∅)
                {["count" := VFun 9]} puppyState puppyStore ∅ [] (VStr "count") [] []
                eq_refl eq_refl) as (_ & Hoverride & _).
    exact (Hoverride eq_refl ltac:(discriminate)).
Defined.

Lemma namespaced_reducer_dispatches_on_type_witness :
  callFunction exampleHost puppyReducer VUndefined
    [VUndefined; VObj {["type" := VStr "models/puppy/PUPPY_QUERY_SUCCESS"]}] []
  = hostCall exampleHost (VFun 3) (VObj puppyReducerFunctions)
      [VMap ∅; VObj {["type" := VStr "models/puppy/PUPPY_QUERY_SUCCESS"]}] []
  ∧ callFunction exampleHost puppyReducer VUndefined
      [VMap puppyState; VObj {["type" := VStr "models/kitten/MEOW"]}] []
    = (Returns (VMap puppyState), [])
  ∧ combineNamespacedReducers exampleHost [puppyReducer] []
    = (Returns (VObj {["models/puppy" := puppyReducer]}), []).
Proof.
  split; [|split].
  - destruct (namespaced_reducer_dispatches_on_type exampleHost (VStr "models/puppy")
                (VMap ∅) VUndefined puppyReducerFunctions
                {["type" := VStr "models/puppy/PUPPY_QUERY_SUCCESS"]} [])
      as (Hpresent & _).
    exact (Hpresent (VFun 3) eq_refl eq_refl).
  - destruct (namespaced_reducer_dispatches_on_type exampleHost (VStr "models/puppy")
                (VMap ∅) (VMap puppyState) puppyReducerFunctions
                {["type" := VStr "models/kitten/MEOW"]} [])
      as (_ & Habsent & _).
    exact (Habsent eq_refl eq_refl).
  - destruct (namespaced_reducer_dispatches_on_type exampleHost (VStr "models/puppy")
                (VMap ∅) VUndefined puppyReducerFunctions ∅ [])
      as (_ & _ & _ & Hfiled).
    exact (Hfiled ltac:(discriminate)).
Defined.

Lemma state_mapping_missing_namespace_witness :
  createMapStateToPropsFunc exampleHost (VStr "models/kitten") (VObj ∅)
    (VArr [VStr "count"]) (VObj ∅) (VObj puppyStore) (VObj ∅) []
  = (Throws (Error ("Unable to find state namespace '" +:+ "models/kitten"
       +:+ "'; Perhaps you forgot to add the namespaced reducer to your call to "
       +:+ "'combineNamespacedReducers'?")), [])
  ∧ createMapStateToPropsFunc exampleHost (VStr "models/puppy") (VObj ∅)
      (VStr "count") (VObj ∅) (VObj puppyStore) (VObj ∅) []
    = (Returns (VObj ∅), []).
Proof.
  split.
  - apply (state_mapping_missing_namespace exampleHost "models/kitten").
    + intros slice H. vm_compute in H. discriminate H.
    + intros _. reflexivity.
  - apply (proj2 (state_mapping_missing_namespace exampleHost "models/puppy"
                    (VObj ∅) (VStr "count") (VObj ∅) (VObj ∅) puppyStore [])
             (VMap puppyState)); reflexivity.
Defined.


Lemma combineNamespacedReducers_last_wins_witness :
  ∃ indexedReduxReducers,
    combineNamespacedReducers exampleHost [puppyReducer; otherPuppyReducer] []
    = (Returns (VObj indexedReduxReducers), [])
    ∧ indexedReduxReducers !! "models/puppy" = Some otherPuppyReducer.
Proof.
  destruct (combineNamespacedReducers_last_wins exampleHost
              [puppyReducer; otherPuppyReducer] [])
    as (m & Hrun & Hlast & _).
  - repeat constructor.
  - repeat constructor; discriminate.
  - exists m. split; [exact Hrun|].
    apply (Hlast [puppyReducer] otherPuppyReducer [] (VStr "models/puppy"));
      [reflexivity|reflexivity|].
    intros r' namespace' Hin. by apply elem_of_nil in Hin.
Defined.

Lemma dispatch_mapping_selects_actions_witness :
  createMapDispatchToPropsObj exampleHost (VObj puppyActions)
    (VArr [VStr "requestPuppy"; VAsPropRenamer (VStr "deletePuppy") (VStr "remove")]) []
  = (Returns (VObj (<["remove" := VFun 2]> {["requestPuppy" := VFun 1]})), [])
  ∧ createMapDispatchToPropsObj exampleHost (VObj puppyActions)
      (VArr [VStr "requestPuppy"; VStr "adoptPuppy"]) []
    = (Returns (VObj {["requestPuppy" := VFun 1]}),
       ["Warning: Attempted to map invalid action name adoptPuppy"])
  ∧ createMapDispatchToPropsObj exampleHost (VObj puppyActions)
      (VArr ([] ++ [VStr "deletePuppy"])) []
    = (Returns (VObj {["deletePuppy" := VFun 2]}), []).
Proof.
  assert (Forall (λ e, "__proto__" ∉ connectedNames exampleHost e) [VStr "requestPuppy"])
    as Hnames by (apply (bool_decide_unpack _); vm_compute; exact I).
  assert (∀ acc warnings,
    createMapDispatchToPropsObj exampleHost (VObj puppyActions)
      (VArr [VStr "requestPuppy"]) [] = (Returns (VObj acc), [] ++ warnings) →
    acc = {["requestPuppy" := VFun 1]} ∧ warnings = []) as Hfirst.
  { intros acc warnings H. vm_compute in H. injection H as <- <-. by vm_compute. }
  split; [|split].
  - destruct (dispatch_mapping_selects_actions exampleHost puppyActions
                [VStr "requestPuppy"] (VAsPropRenamer (VStr "deletePuppy") (VStr "remove"))
                [] Hnames)
      as (_ & acc & warnings & Hrun & _ & Hrenamed & _).
    destruct (Hfirst _ _ Hrun) as [-> ->].
    exact (Hrenamed (VStr "deletePuppy") (VStr "remove") eq_refl eq_refl
             ltac:(discriminate)).
  - destruct (dispatch_mapping_selects_actions exampleHost puppyActions
                [VStr "requestPuppy"] (VStr "adoptPuppy") [] Hnames)
      as (_ & acc & warnings & Hrun & _ & _ & Hinvalid).
    destruct (Hfirst _ _ Hrun) as [-> ->].
    apply Hinvalid.
    + intros name [= <-]. reflexivity.
    + intros src tgt [=].
  - destruct (dispatch_mapping_selects_actions exampleHost puppyActions
                [] (VStr "deletePuppy") [] (Forall_nil_2 _))
      as (_ & acc & warnings & Hrun & Hdirect & _).
    assert (acc = ∅ ∧ warnings = []) as [-> ->].
    { vm_compute in Hrun. injection Hrun as <- <-. by vm_compute. }
    exact (Hdirect "deletePuppy" eq_refl eq_refl ltac:(discriminate)).
Defined.
(** ** The further properties at concrete inputs *)

Lemma reducer_handler_edge_cases_witness :
  callFunction exampleHost
    (createNamespacedReducer (VStr "models/puppy") (VMap ∅) (VObj {["ADD" := VNum 0]}))
    VUndefined [VMap puppyState; VObj {["type" := VStr "ADD"]}] []
  = (Returns (VMap puppyState), [])
  ∧ callFunction exampleHost
      (createNamespacedReducer (VStr "models/puppy") (VMap ∅) (VObj {["ADD" := VNum 5]}))
      VUndefined [VMap puppyState; VObj {["type" := VStr "ADD"]}] []
    = (Throws TypeError, [])
  ∧ callFunction exampleHost
      (createNamespacedReducer (VStr "models/puppy") (VMap ∅) (VObj ∅))
      VUndefined [VMap puppyState; VObj {["type" := VStr "__proto__"]}] []
    = (Throws TypeError, []).
Proof.
  split; [|split].
  - destruct (reducer_handler_edge_cases exampleHost (VStr "models/puppy") (VMap ∅)
                (VMap puppyState) {["ADD" := VNum 0]} {["type" := VStr "ADD"]} [])
      as (Hfalsy & _).
    exact (Hfalsy eq_refl).
  - destruct (reducer_handler_edge_cases exampleHost (VStr "models/puppy") (VMap ∅)
                (VMap puppyState) {["ADD" := VNum 5]} {["type" := VStr "ADD"]} [])
      as (_ & _ & Hthrows & _).
    exact (Hthrows eq_refl eq_refl).
  - destruct (reducer_handler_edge_cases exampleHost (VStr "models/puppy") (VMap ∅)
                (VMap puppyState) ∅ {["type" := VStr "__proto__"]} [])
      as (_ & _ & Hthrows & _).
    exact (Hthrows eq_refl eq_refl).
Defined.

Lemma combineNamespacedReducers_distinct_namespaces_witness :
  ∃ indexedReduxReducers,
    combineNamespacedReducers exampleHost [puppyReducer; kittenReducer] []
    = (Returns (VObj indexedReduxReducers), [])
    ∧ indexedReduxReducers !! "models/puppy" = Some puppyReducer
    ∧ indexedReduxReducers !! "models/kitten" = Some kittenReducer
    ∧ size indexedReduxReducers = 2.
Proof.
  destruct (combineNamespacedReducers_distinct_namespaces exampleHost
              [puppyReducer; kittenReducer] [])
    as (m & Hrun & Hlookup & Hsize).
  - repeat constructor.
  - repeat constructor; discriminate.
  - apply (bool_decide_unpack _). vm_compute. exact I.
  - exists m. split; [exact Hrun|]. split; [|split; [|exact Hsize]].
    + apply (Hlookup puppyReducer). apply elem_of_cons. by left.
    + apply (Hlookup kittenReducer). apply elem_of_cons. right.
      apply elem_of_cons. by left.
Defined.

Lemma checkConfigPrerequisiteSatisfied_outcomes_witness :
  checkConfigPrerequisiteSatisfied exampleHost VUndefined VUndefined (VStr "max")
    (VObj {["max" := VStr "5"]}) [] = (Returns VUndefined, [])
  ∧ checkConfigPrerequisiteSatisfied exampleHost (VStr "connectPuppyModel")
      (VStr "puppyRecords") (VStr "max") (VObj {["max" := VNum 5]}) []
    = (Throws (Error ("In `puppyRecords` override in `connectProductListProductsModel`."
                      +:+ "  Config property `max` is required but not specified")), []).
Proof.
  split.
  - apply (proj1 (checkConfigPrerequisiteSatisfied_outcomes exampleHost VUndefined
                    VUndefined (VStr "max") (VObj {["max" := VStr "5"]}) [])).
    split; [reflexivity|]. exists "5". reflexivity.
  - destruct (checkConfigPrerequisiteSatisfied_outcomes exampleHost
                (VStr "connectPuppyModel") (VStr "puppyRecords") (VStr "max")
                (VObj {["max" := VNum 5]}) []) as (_ & _ & Hother & _).
    apply (Hother (VNum 5)); [reflexivity|reflexivity|discriminate].
Defined.

Lemma dispatch_mapping_exposes_table_actions_only_witness :
  ∃ mapped warnings,
    createMapDispatchToPropsObj exampleHost (VObj puppyActions)
      (VArr [VStr "requestPuppy"; VStr "toString"; VStr "adoptPuppy"]) []
    = (Returns (VObj mapped), [] ++ warnings)
    ∧ (size mapped + length warnings ≤ 3)%nat.
Proof.
  destruct (dispatch_mapping_exposes_table_actions_only exampleHost puppyActions
              [VStr "requestPuppy"; VStr "toString"; VStr "adoptPuppy"] [])
    as (mapped & warnings & Hrun & _ & Hcount).
  - apply (bool_decide_unpack _). vm_compute. exact I.
  - by exists mapped, warnings.
Defined.

Lemma connector_without_action_table_witness :
  callMethod exampleHost (createNamespaceConnector (VStr "models/puppy") VUndefined VUndefined)
    "curriedCreateMapDispatchToProps"
    [VArr [VStr "requestPuppy"; VAsPropRenamer (VStr "deletePuppy") (VStr "remove")]] []
  = (Returns (VObj ∅),
     ["Warning: Attempted to map invalid action name requestPuppy";
      "Warning: Attempted to map invalid action name [object Object]"]).
Proof.
  apply (proj1 (connector_without_action_table exampleHost (VStr "models/puppy")
                  VUndefined
                  [VStr "requestPuppy"; VAsPropRenamer (VStr "deletePuppy") (VStr "remove")]
                  "requestPuppy" [])).
  repeat constructor.
  - intros action [= <-]. reflexivity.
  - intros source target [=].
  - intros action [=].
  - intros source target [= <- <-]. reflexivity.
Defined.

Lemma state_mapping_exposes_requested_props_only_witness :
  ∃ e, e ∈ [VStr "count"; VAsPropRenamer (VStr "count") (VStr "total")]
       ∧ (toString exampleHost e = "total"
          ∨ ∃ source target,
              e = VAsPropRenamer source target ∧ toString exampleHost target = "total").
Proof.
  apply (state_mapping_exposes_requested_props_only exampleHost (VStr "models/puppy")
           (VObj ∅) (VObj ∅) (VObj puppyStore) (VObj ∅)
           [VStr "count"; VAsPropRenamer (VStr "count") (VStr "total")] [] []
           (<["total" := VNum 5]> puppyState)).
  - vm_compute. reflexivity.
  - exists (VNum 5). vm_compute. reflexivity.
Defined.

Lemma state_mapping_reads_ownProps_and_config_through_overrides_only_witness :
  createMapStateToPropsFunc exampleHost (VStr "models/puppy") (VObj puppyOverrides)
    (VArr [VStr "count"; VStr "toString"]) (VObj ∅) (VObj puppyStore) (VObj ∅) []
  = createMapStateToPropsFunc exampleHost (VStr "models/puppy") (VObj puppyOverrides)
      (VArr [VStr "count"; VStr "toString"]) (VNum 1) (VObj puppyStore)
      (VObj puppyState) [].
Proof.
  apply state_mapping_reads_ownProps_and_config_through_overrides_only.
  - repeat constructor; intros s target [=].
  - intros e state console0 Hin Hfun.
    apply elem_of_cons in Hin as [->|Hin]; [vm_compute in Hfun; discriminate Hfun|].
    apply list_elem_of_singleton in Hin as ->. reflexivity.
Defined.

Lemma state_mapping_plain_object_slice_is_fatal_witness :
  createMapStateToPropsFunc exampleHost (VStr "models/puppy") (VObj ∅)
    (VArr ([] ++ VStr "count" :: [])) (VObj ∅) (VObj plainStore) (VObj ∅) []
  = (Throws TypeError, []).
Proof.
  apply (state_mapping_plain_object_slice_is_fatal exampleHost (VStr "models/puppy")
           (VObj ∅) (VObj ∅) ∅ puppyState plainStore ∅ [] [] "count" [] []);
    reflexivity.
Defined.

Lemma connector_actions_must_be_an_array_witness :
  (∃ cc, connector exampleHost (VStr "models/puppy") (VObj puppyActions) (VObj ∅)
           (VArr [VStr "count"]) VNull VUndefined [] = (Returns cc, [])
         ∧ mapDispatchToProps cc = VObj ∅)
  ∧ connector exampleHost (VStr "models/puppy") (VObj puppyActions) (VObj ∅)
      (VArr [VStr "count"]) (VStr "requestPuppy") VUndefined []
    = (Throws TypeError, []).
Proof.
  split.
  - apply (proj1 (connector_actions_must_be_an_array exampleHost (VStr "models/puppy")
                    (VObj puppyActions) (VObj ∅) (VArr [VStr "count"]) VNull VUndefined
                    "requestPuppy" [])). reflexivity.
  - apply (proj2 (connector_actions_must_be_an_array exampleHost (VStr "models/puppy")
                    (VObj puppyActions) (VObj ∅) (VArr [VStr "count"]) VNull VUndefined
                    "requestPuppy" [])). discriminate.
Defined.

Lemma propAs_directive_connects_under_target_witness :
  bind (propAs exampleHost (VStr "z") (VStr "total"))
    (λ directive,
       createMapStateToPropsFunc exampleHost (VStr "a") (VObj ∅) (VArr [directive])
         (VObj ∅) (VObj storeAB) (VObj ∅)) []
  = (Returns (VObj {["total" := VNum 10]}), [])
  ∧ bind (propAs exampleHost (VStr "z") (VStr "total"))
      (λ directive,
         createMapDispatchToPropsObj exampleHost
           (VObj (<["load" := VFun 1]> {["z" := VFun 2]})) (VArr [directive])) []
    = (Returns (VObj {["total" := VFun 2]}), []).
Proof.
  apply (propAs_directive_connects_under_target exampleHost (VStr "a") (VObj ∅) (VObj ∅)
           ∅ (<["x" := VNum 1]> {["z" := VNum 10]}) storeAB
           (<["load" := VFun 1]> {["z" := VFun 2]}) "z" "total" (VNum 10) (VFun 2) []);
    first [reflexivity|discriminate].
Defined.

Lemma pushFunc_needs_a_connector_when_something_is_requested_witness :
  ∃ b,
    combineConnectors exampleHost [] [] = (Returns b, [])
    ∧ pushFunc exampleHost b VUndefined VUndefined VUndefined VUndefined []
      = (Returns b, [])
    ∧ pushFunc exampleHost b (VObj ∅) (VArr [VStr "count"]) VUndefined VUndefined []
      = (Throws TypeError, []).
Proof.
  eexists. split; [reflexivity|]. split.
  - apply pushFunc_needs_a_connector_when_something_is_requested; reflexivity.
  - apply pushFunc_needs_a_connector_when_something_is_requested; [reflexivity|].
    intros f [= <-]. reflexivity.
Defined.

Lemma combineConnectors_ignores_entry_without_request_witness :
  combineConnectors exampleHost ([entryA] ++ [VArr [connectB]]) []
  = combineConnectors exampleHost [entryA] []
  ∧ combineConnectors exampleHost ([entryA] ++ [VArr [VArr [connectB; VArr [VStr "y"]]]]) []
    = combineConnectors exampleHost [entryA] [].
Proof.
  split.
  - apply (proj1 (combineConnectors_ignores_entry_without_request exampleHost
                    [entryA] [connectB] [] [] ltac:(discriminate))); reflexivity.
  - apply (proj2 (combineConnectors_ignores_entry_without_request exampleHost
                    [entryA] [] [connectB; VArr [VStr "y"]] [] ltac:(discriminate))).
Defined.

Lemma connectFunc_twice_overwrites_mergeProps_and_options_witness :
  ∃ b bound b',
    combineConnectors exampleHost [] [] = (Returns b, [])
    ∧ combinedConnectors exampleHost
        (connectFunc (connectFunc b (VFun 1) VUndefined (VFun 2) (VObj ∅))
           VUndefined VUndefined VUndefined VUndefined) (VFun 0) []
      = (Returns (bound, b'), [])
    ∧ mergePropsArg (call bound) = VUndefined
    ∧ optionsArg (call bound) = VUndefined.
Proof.
  do 3 eexists. split; [reflexivity|]. split; [reflexivity|].
  destruct (connectFunc_twice_overwrites_mergeProps_and_options exampleHost
              (Build_Builder [] [VObj ∅] VUndefined VUndefined)
              (VFun 1) VUndefined (VFun 2) (VObj ∅)
              VUndefined VUndefined VUndefined VUndefined) as (_ & _ & Hlast).
  exact (Hlast (VFun 0) [] _ _ [] eq_refl).
Defined.

Lemma connecting_twice_gives_the_same_binding_witness :
  ∃ b bound b' bound',
    combineConnectors exampleHost [entryA; entryB] [] = (Returns b, [])
    ∧ combinedConnectors exampleHost b (VFun 0) [] = (Returns (bound, b'), [])
    ∧ combinedConnectors exampleHost b' (VFun 1) [] = (Returns (bound', b'), [])
    ∧ call bound' = call bound.
Proof.
  destruct (combineConnectors exampleHost [entryA; entryB] []) as [[b|e] c] eqn:Hnew;
    [|vm_compute in Hnew; discriminate Hnew].
  assert (c = []) as -> by (vm_compute in Hnew; by injection Hnew).
  destruct (combinedConnectors exampleHost b (VFun 0) []) as [[[bound b']|e] c]
    eqn:Hfirst; [|vm_compute in Hnew; injection Hnew as <-; vm_compute in Hfirst;
                   discriminate Hfirst].
  assert (c = []) as ->
    by (vm_compute in Hnew; injection Hnew as <-; vm_compute in Hfirst;
        by injection Hfirst).
  destruct (connecting_twice_gives_the_same_binding exampleHost b b' bound
              (VFun 0) (VFun 1) [] [] []
              (Built_combineConnectors _ _ _ _ _ Hnew) Hfirst)
    as (bound' & Hsecond & Hcall & _).
  exists b, bound, b', bound'. by repeat split.
Defined.

Lemma combined_state_mapping_stops_at_first_throw_witness :
  runMapStateToProps exampleHost
    (VCombinedMapStateToProps
       ([VMapStateToProps (VStr "models/puppy") (VObj ∅) (VArr [VStr "missing"]) (VObj ∅)]
        ++ VMapStateToProps (VStr "models/kitten") (VObj ∅) (VArr [VStr "count"]) (VObj ∅)
           :: [VMapStateToProps (VStr "models/puppy") (VObj ∅) (VArr [VStr "other"])
                 (VObj ∅)]))
    (VObj puppyStore) (VObj ∅) []
  = (Throws (Error ("Unable to find state namespace 'models/kitten'; Perhaps you "
                    +:+ "forgot to add the namespaced reducer to your call to "
                    +:+ "'combineNamespacedReducers'?")),
     ["Warning: Attempted to map invalid state key name missing"]).
Proof.
  apply (combined_state_mapping_stops_at_first_throw exampleHost _ _ _ _ _ [VObj ∅] _ []
           ["Warning: Attempted to map invalid state key name missing"]);
    vm_compute; reflexivity.
Defined.


Lemma pushed_connector_does_not_default_config_witness :
  ∃ cc b,
    connector exampleHost (VStr "models/puppy") (VObj puppyActions) (VObj puppyOverrides)
      (VArr [VStr "doubled"]) VUndefined VUndefined [] = (Returns cc, [])
    ∧ runMapStateToProps exampleHost (mapStateToProps cc) (VObj puppyStore) (VObj ∅) []
      = bind (hostCall exampleHost (VFun 7) (VObj puppyOverrides)
                [VMap puppyState; VObj ∅; VObj ∅])
          (λ value, ret (VObj {["doubled" := value]})) []
    ∧ combineConnectors exampleHost
        [VArr [VConnector (VStr "models/puppy") (VObj puppyActions) (VObj puppyOverrides);
               VArr [VStr "doubled"]]] []
      = (Returns b, [])
    ∧ runMapStateToProps exampleHost (VCombinedMapStateToProps (stateMappers b))
        (VObj puppyStore) (VObj ∅) []
      = bind (hostCall exampleHost (VFun 7) (VObj puppyOverrides)
                [VMap puppyState; VObj ∅; VUndefined])
          (λ value, ret (VObj {["doubled" := value]})) [].
Proof.
  destruct (pushed_connector_does_not_default_config exampleHost (VStr "models/puppy")
              (VObj puppyActions) (VObj ∅) puppyOverrides puppyState puppyStore
              "doubled" (VFun 7) [] [] eq_refl eq_refl eq_refl)
    as (cc & b & Hcall & _ & Hnew & _ & _ & Hnamed).
  destruct (Hnamed ltac:(discriminate)) as [Hdirect Hpushed].
  exists cc, b.
  split; [exact Hcall|]. split; [exact Hdirect|]. split; [exact Hnew|]. exact Hpushed.
Defined.

Lemma inherited_method_names_count_as_present_witness :
  callFunction exampleHost puppyReducer VUndefined
    [VMap puppyState; VObj {["type" := VStr "toString"]}] []
  = (Returns (VStr "[object Object]"), [])
  ∧ createMapDispatchToPropsObj exampleHost (VObj puppyActions) (VArr [VStr "valueOf"]) []
    = (Returns (VObj {["valueOf" := VBuiltin "Object.prototype.valueOf"]}), [])
  ∧ createMapStateToPropsFunc exampleHost (VStr "constructor") (VObj ∅) VUndefined
      (VObj ∅) (VObj puppyStore) (VObj ∅) []
    = (Returns (VObj ∅), []).
Proof.
  assert (∀ name, name ∈ ["toString"; "valueOf"; "constructor"] →
            name ∈ objectPrototypeMethods) as Hnames.
  { intros name Hin. repeat (apply elem_of_cons in Hin as [->|Hin];
      [apply (bool_decide_unpack _); vm_compute; exact I|]).
    by apply elem_of_nil in Hin. }
  split; [|split].
  - destruct (inherited_method_names_count_as_present exampleHost "toString"
                puppyReducerFunctions (VStr "models/puppy") (VMap ∅) (VMap puppyState)
                VUndefined VUndefined VUndefined VUndefined [] eq_refl)
      as (_ & Hreducer & _); [|exact Hreducer].
    apply Hnames. apply elem_of_cons. by left.
  - destruct (inherited_method_names_count_as_present exampleHost "valueOf"
                puppyActions VUndefined VUndefined VUndefined
                VUndefined VUndefined VUndefined VUndefined [] eq_refl)
      as (_ & _ & Hdispatch & _); [|exact Hdispatch].
    apply Hnames. apply elem_of_cons. right. apply elem_of_cons. by left.
  - destruct (inherited_method_names_count_as_present exampleHost "constructor"
                puppyStore VUndefined VUndefined VUndefined
                (VObj ∅) VUndefined (VObj ∅) (VObj ∅) [] eq_refl)
      as (_ & _ & _ & Hstate); [|exact (Hstate eq_refl)].
    apply Hnames. apply elem_of_cons. right. apply elem_of_cons. right.
    apply elem_of_cons. by left.
Defined.

Lemma nothing_is_connected_under_proto_witness :
  createMapDispatchToPropsObj exampleHost (VObj puppyActions) (VArr [VStr "__proto__"]) []
  = (Returns (VObj ∅), [])
  ∧ createMapStateToPropsFunc exampleHost (VStr "models/puppy") (VObj ∅)
      (VArr [VAsPropRenamer (VStr "count") (VStr "__proto__")]) (VObj ∅)
      (VObj puppyStore) (VObj ∅) []
    = (Returns (VObj ∅), [])
  ∧ combineNamespacedReducers exampleHost [protoReducer] []
    = (Returns (VObjWithProto protoReducer ∅), []).
Proof.
  apply (nothing_is_connected_under_proto exampleHost puppyActions ∅ puppyState
           puppyStore (VStr "models/puppy") (VObj ∅) (VObj ∅) (VMap ∅) (VObj ∅)
           "count" (VNum 5) []);
    first [reflexivity|discriminate].
Defined.
